(** * A shallow embedding of [src/src/parser.rs] and [src/src/main.rs] (TR_PDF_Rename)

    Rust [String]s and [&str]s are modelled as lists of Unicode scalar
    values ([list Z]); [str::len] is the UTF-8 byte length [blen], so that
    byte-indexed operations such as [String::truncate] can be modelled
    with their panics.  A computation that panics returns [None]. *)

From Stdlib Require Import ZArith Bool Ascii String List Lia.
Import ListNotations.
Open Scope string_scope.
Open Scope Z_scope.
Open Scope list_scope.

(** ** Characters and strings *)

(** A string is the list of its Unicode scalar values. *)
Definition rstr := list Z.

(** ASCII literals. *)
Definition lit (s : String.string) : rstr :=
  map (fun a => Z.of_nat (nat_of_ascii a)) (String.list_ascii_of_string s).
Arguments lit s%_string_scope.

(** A text made of the given ASCII lines, each ended by a newline. *)
Definition text_of (ls : list String.string) : rstr :=
  concat (map (fun l => lit l ++ [10]) ls).

(** Number of bytes [c] takes in UTF-8. *)
Definition utf8_len (c : Z) : Z :=
  if c <? 128 then 1 else if c <? 2048 then 2 else if c <? 65536 then 3 else 4.

(** [str::len]: the UTF-8 byte length. *)
Fixpoint blen (s : rstr) : Z :=
  match s with
  | [] => 0
  | c :: t => utf8_len c + blen t
  end.

Fixpoint str_eqb (a b : rstr) : bool :=
  match a, b with
  | [], [] => true
  | x :: a', y :: b' => (x =? y) && str_eqb a' b'
  | _, _ => false
  end.

Definition underscore : Z := 95.

(** [char::is_control]: general category Cc. *)
Definition is_control (c : Z) : bool :=
  ((0 <=? c) && (c <=? 31)) || ((127 <=? c) && (c <=? 159)).

(** [char::is_whitespace] and regex [\s]: the Unicode White_Space property. *)
Definition is_whitespace (c : Z) : bool :=
  ((9 <=? c) && (c <=? 13)) || (c =? 32) || (c =? 133) || (c =? 160)
  || (c =? 5760) || ((8192 <=? c) && (c <=? 8202)) || (c =? 8232)
  || (c =? 8233) || (c =? 8239) || (c =? 8287) || (c =? 12288).

Definition is_ascii_digit (c : Z) : bool := (48 <=? c) && (c <=? 57).
Definition is_ascii_upper (c : Z) : bool := (65 <=? c) && (c <=? 90).
Definition is_ascii_lower (c : Z) : bool := (97 <=? c) && (c <=? 122).
Definition is_ascii_alphabetic (c : Z) : bool := is_ascii_upper c || is_ascii_lower c.
Definition is_ascii_alphanumeric (c : Z) : bool := is_ascii_alphabetic c || is_ascii_digit c.

(** ** [clean_name] *)

(** The characters [clean_name] drops with [retain] (lines 107-113). *)
Definition retain_ok (c : Z) : bool :=
  negb (is_control c) && negb (c =? 8238) && negb (c =? 8237)
  && negb (c =? 8206) && negb (c =? 8207).

(** [DANGEROUS_CHARS_RE]: the class of [<], [>], [:], the double quote,
    [|], [?], [*], the backslash, [.], [/], the brackets and parentheses. *)
Definition is_dangerous (c : Z) : bool :=
  existsb (Z.eqb c) [60; 62; 58; 34; 124; 63; 42; 92; 46; 47; 91; 93; 40; 41].

(** [WHITESPACE_RE]: [[\s,]]. *)
Definition is_ws_or_comma (c : Z) : bool := is_whitespace c || (c =? 44).

Definition is_underscore (c : Z) : bool := c =? underscore.

(** [Regex::replace_all(s, "_")] for a one-character class: every match is
    one character. *)
Definition replace_each (p : Z -> bool) (s : rstr) : rstr :=
  map (fun c => if p c then underscore else c) s.

(** [Regex::replace_all(s, "_")] for a class followed by [+]: each maximal
    run of class characters becomes one ["_"]; [in_run] records that the
    previous character belonged to a run already replaced. *)
Fixpoint replace_runs_aux (p : Z -> bool) (in_run : bool) (s : rstr) : rstr :=
  match s with
  | [] => []
  | c :: t =>
      if p c then
        if in_run then replace_runs_aux p true t
        else underscore :: replace_runs_aux p true t
      else c :: replace_runs_aux p false t
  end.

Definition replace_runs (p : Z -> bool) (s : rstr) : rstr := replace_runs_aux p false s.

Fixpoint drop_while (p : Z -> bool) (s : rstr) : rstr :=
  match s with
  | [] => []
  | c :: t => if p c then drop_while p t else s
  end.

(** [trim_start_matches] / [trim_end_matches] / [trim_matches]. *)
Definition trim_start_by (p : Z -> bool) (s : rstr) : rstr := drop_while p s.
Definition trim_end_by (p : Z -> bool) (s : rstr) : rstr := rev (drop_while p (rev s)).
Definition trim_by (p : Z -> bool) (s : rstr) : rstr := trim_end_by p (trim_start_by p s).

(** [str::trim]: White_Space on both ends. *)
Definition trim (s : rstr) : rstr := trim_by is_whitespace s.

(** [clean_name] (lines 98-120). *)
Definition clean_name (name : rstr) : rstr :=
  if 500 <? blen name then lit "Invalid_Asset_Name"
  else
    let s := filter retain_ok name in
    let s := replace_each is_dangerous s in
    let s := replace_runs is_ws_or_comma s in
    let s := replace_runs is_underscore s in
    trim_by is_underscore s.

(** ** Dates *)

(** [chrono::NaiveDate], as its year, month and day. *)
Record NaiveDate := mkDate { year : Z; month : Z; day : Z }.

Definition is_leap (y : Z) : bool :=
  ((y mod 4 =? 0) && negb (y mod 100 =? 0)) || (y mod 400 =? 0).

Definition days_in_month (y m : Z) : Z :=
  if m =? 2 then (if is_leap y then 29 else 28)
  else if (m =? 4) || (m =? 6) || (m =? 9) || (m =? 11) then 30
  else 31.

(** [NaiveDate::from_ymd_opt] (chrono's year range is +/-262143). *)
Definition from_ymd_opt (y m d : Z) : option NaiveDate :=
  if (-262143 <=? y) && (y <=? 262142) && (1 <=? m) && (m <=? 12)
     && (1 <=? d) && (d <=? days_in_month y m)
  then Some (mkDate y m d) else None.

(** Decimal digits of a non-negative number ([fuel] bounds their count). *)
Fixpoint digits_aux (fuel : nat) (n : Z) (acc : rstr) : rstr :=
  match fuel with
  | O => acc
  | S f => if n <? 10 then (48 + n) :: acc
           else digits_aux f (n / 10) (48 + n mod 10 :: acc)
  end.

Definition digits (n : Z) : rstr := digits_aux 64 n [].

Definition pad_zero (w : nat) (s : rstr) : rstr :=
  repeat 48 (w - length s)%nat ++ s.

(** [date.format("%Y_%m_%d")]: chrono writes [%Y] with four digits for
    years in [0, 9999] and with an explicit sign otherwise. *)
Definition format_date (d : NaiveDate) : rstr :=
  let y := year d in
  let ys := if (0 <=? y) && (y <=? 9999) then pad_zero 4 (digits y)
            else (if y <? 0 then 45 else 43) :: pad_zero 4 (digits (Z.abs y)) in
  ys ++ [underscore] ++ pad_zero 2 (digits (month d))
     ++ [underscore] ++ pad_zero 2 (digits (day d)).

(** ** The record produced by the parser (lines 81-90) *)
Record PdfData := mkPdfData {
  date : NaiveDate;
  doc_type : rstr;
  isin : option rstr;
  asset : rstr
}.

(** ** [std::path::Path::extension] on Unix *)

Fixpoint split_on (sep : Z) (s : rstr) : list rstr :=
  match s with
  | [] => [[]]
  | c :: t =>
      if c =? sep then [] :: split_on sep t
      else match split_on sep t with
           | h :: r => (c :: h) :: r
           | [] => [[c]]
           end
  end.

Fixpoint last_opt {A} (l : list A) : option A :=
  match l with
  | [] => None
  | [x] => Some x
  | _ :: t => last_opt t
  end.

(** [Path::file_name]: the last normal component; [Components] skips empty
    and ["."] components, and a final [".."] has no file name. *)
Definition file_name (p : rstr) : option rstr :=
  match last_opt (filter (fun comp => negb (str_eqb comp []) && negb (str_eqb comp [46]))
                         (split_on 47 p)) with
  | Some comp => if str_eqb comp [46; 46] then None else Some comp
  | None => None
  end.

(** The parts of [s] before and after the first [sep], if any. *)
Fixpoint break_at (sep : Z) (s : rstr) : option (rstr * rstr) :=
  match s with
  | [] => None
  | c :: t =>
      if c =? sep then Some ([], t)
      else match break_at sep t with
           | Some (a, b) => Some (c :: a, b)
           | None => None
           end
  end.

(** [rsplitn(2, '.')] on a file name: the parts before and after the last
    dot, if there is a dot. *)
Definition split_last_dot (f : rstr) : option (rstr * rstr) :=
  match break_at 46 (rev f) with
  | Some (ra, rb) => Some (rev rb, rev ra)
  | None => None
  end.

(** [Path::extension]: [rsplit_file_at_dot] and then [before.and(after)];
    a name whose only dot is its first character has no extension. *)
Definition path_extension (p : rstr) : option rstr :=
  match file_name p with
  | None => None
  | Some f =>
      match split_last_dot f with
      | None => None
      | Some (before, after) =>
          match before with
          | [] => None
          | _ => Some after
          end
      end
  end.

(** ** [build_filename] (lines 375-410) *)

(** [String::truncate(n)]: panics unless [n] is a char boundary. *)
Fixpoint truncate (n : Z) (s : rstr) : option rstr :=
  match s with
  | [] => Some []
  | c :: t =>
      if n <=? 0 then Some []
      else if n <? utf8_len c then None
      else option_map (cons c) (truncate (n - utf8_len c) t)
  end.

(** [s.replace(ch, rep)] for a single character [ch]. *)
Definition replace_char (ch : Z) (rep : rstr) (s : rstr) : rstr :=
  concat (map (fun c => if c =? ch then rep else [c]) s).

(** Lines 382-386: the cleaned asset name, cut to 50 bytes. *)
Definition namepart_of (asset : rstr) : option rstr :=
  let namepart := clean_name asset in
  if 50 <? blen namepart then
    match truncate 50 namepart with
    | Some t => Some (trim_end_by is_underscore t)
    | None => None
    end
  else Some namepart.

(** Lines 389-392. *)
Definition isin_part (i : option rstr) : option rstr :=
  match i with
  | Some s => if (blen s =? 12) && forallb is_ascii_alphanumeric s then Some s else None
  | None => None
  end.

Definition ext_ok (e : rstr) : bool :=
  (blen e <=? 10) && forallb is_ascii_alphanumeric e.

(** Lines 395-399. *)
Definition ext_part (orig_name : rstr) : rstr :=
  match path_extension orig_name with
  | Some e => if ext_ok e then e else lit "pdf"
  | None => lit "pdf"
  end.

Definition build_filename (pdf_data : PdfData) (orig_name : rstr) : option rstr :=
  let d := format_date (date pdf_data) in
  let dt := clean_name (replace_char 32 [underscore] (doc_type pdf_data)) in
  match namepart_of (asset pdf_data) with
  | None => None
  | Some namepart =>
      let ext := ext_part orig_name in
      Some match isin_part (isin pdf_data) with
           | Some isin_str =>
               if str_eqb namepart isin_str then
                 d ++ [underscore] ++ dt ++ [underscore] ++ isin_str ++ [46] ++ ext
               else
                 d ++ [underscore] ++ dt ++ [underscore] ++ isin_str ++ [underscore]
                   ++ namepart ++ [46] ++ ext
           | None => d ++ [underscore] ++ dt ++ [underscore] ++ namepart ++ [46] ++ ext
           end
  end.

Definition mk_test (y m d : Z) (dt : String.string) (i : option String.string) (a : String.string) : PdfData :=
  mkPdfData (mkDate y m d) (lit dt) (option_map lit i) (lit a).
Arguments mk_test y m d dt%_string_scope i a%_string_scope.

(** ** Regular expressions ([regex] crate), as a backtracking matcher

    The crate returns leftmost-first matches: at the leftmost position where
    the pattern matches, the match preferred by the order of alternatives and
    the greediness of repetitions, which is the match a backtracking search
    finds first.  The matcher below is written in continuation-passing
    style: [k] is the rest of the pattern. *)

Inductive re :=
| REps
| RClass (p : Z -> bool)                        (* one character of a class *)
| RSeq (a b : re)
| RAlt (a b : re)                               (* [a|b], [a] preferred *)
| RRep (lo : nat) (hi : option nat) (greedy : bool) (a : re)   (* [a{lo,hi}], [a{lo,hi}?] *)
| RGroup (n : nat) (a : re)                     (* capture group [n] *)
| RWordB                                        (* [\b] *)
| REnd.                                         (* [$] without multi-line mode *)

(** Matcher state: the character before the current position (for [\b]),
    the unread input, the position (in characters) and the captures, newest
    first. *)
Record mstate := MS {
  m_prev : option Z;
  m_rest : rstr;
  m_pos : nat;
  m_caps : list (nat * (nat * nat))
}.

(** Unicode [\w], for the Latin script: ASCII word characters, the Latin-1
    and Latin Extended-A/B letters and the combining diacritical marks; other
    code points count as non-word characters. *)
Definition is_word_char (c : Z) : bool :=
  is_ascii_alphanumeric c || (c =? 95) || (c =? 170) || (c =? 181) || (c =? 186)
  || ((192 <=? c) && (c <=? 591) && negb (c =? 215) && negb (c =? 247))
  || ((768 <=? c) && (c <=? 879)).

Definition word_opt (c : option Z) : bool :=
  match c with Some c => is_word_char c | None => false end.

Definition advance (s : mstate) (c : Z) (t : rstr) : mstate :=
  MS (Some c) t (S (m_pos s)) (m_caps s).

Definition set_cap (n : nat) (start : nat) (s : mstate) : mstate :=
  MS (m_prev s) (m_rest s) (m_pos s) ((n, (start, m_pos s)) :: m_caps s).

Fixpoint mt (r : re) (s : mstate) (k : mstate -> option mstate) {struct r} : option mstate :=
  match r with
  | REps => k s
  | RClass p =>
      match m_rest s with
      | c :: t => if p c then k (advance s c t) else None
      | [] => None
      end
  | RSeq a b => mt a s (fun s' => mt b s' k)
  | RAlt a b =>
      match mt a s k with
      | Some x => Some x
      | None => mt b s k
      end
  | RGroup n a => mt a s (fun s' => k (set_cap n (m_pos s) s'))
  | RWordB =>
      if xorb (word_opt (m_prev s)) (word_opt (hd_error (m_rest s))) then k s else None
  | REnd =>
      match m_rest s with
      | [] => k s
      | _ => None
      end
  | RRep lo hi greedy a =>
      (* [i] iterations done; past [lo], an iteration must consume input *)
      let fix loop (fuel : nat) (i : nat) (s : mstate) {struct fuel} : option mstate :=
        match fuel with
        | O => None
        | S f =>
            if Nat.ltb i lo then mt a s (fun s' => loop f (S i) s')
            else if match hi with Some h => Nat.leb h i | None => false end then k s
            else if greedy then
              match mt a s (fun s' => if Nat.eqb (m_pos s') (m_pos s) then None
                                      else loop f (S i) s') with
              | Some x => Some x
              | None => k s
              end
            else
              match k s with
              | Some x => Some x
              | None => mt a s (fun s' => if Nat.eqb (m_pos s') (m_pos s) then None
                                          else loop f (S i) s')
              end
        end
      in loop (lo + S (length (m_rest s)))%nat O s
  end.

(** A match: its start and the final state. *)
Definition rmatch := (nat * mstate)%type.

(** Leftmost match starting at or after the given position. *)
Fixpoint search (r : re) (prev : option Z) (rest : rstr) (pos : nat) : option rmatch :=
  match mt r (MS prev rest pos []) Some with
  | Some s => Some (pos, s)
  | None =>
      match rest with
      | [] => None
      | c :: t => search r (Some c) t (S pos)
      end
  end.

(** [Regex::captures] and [Regex::is_match]. *)
Definition captures (r : re) (hay : rstr) : option rmatch := search r None hay O.

Definition is_match (r : re) (hay : rstr) : bool :=
  match captures r hay with Some _ => true | None => false end.

(** [Regex::captures_iter]: successive non-overlapping matches; after an
    empty match the search resumes one character further. *)
Fixpoint all_matches (fuel : nat) (r : re) (prev : option Z) (rest : rstr) (pos : nat)
    : list rmatch :=
  match fuel with
  | O => []
  | S f =>
      match search r prev rest pos with
      | None => []
      | Some (st, s) =>
          (st, s) ::
          (if Nat.eqb (m_pos s) st then
             match m_rest s with
             | [] => []
             | c :: t => all_matches f r (Some c) t (S (m_pos s))
             end
           else all_matches f r (m_prev s) (m_rest s) (m_pos s))
      end
  end.

Definition captures_iter (r : re) (hay : rstr) : list rmatch :=
  all_matches (S (length hay)) r None hay O.

Fixpoint cap_lookup (n : nat) (caps : list (nat * (nat * nat))) : option (nat * nat) :=
  match caps with
  | [] => None
  | (m, v) :: t => if Nat.eqb m n then Some v else cap_lookup n t
  end.

(** [caps.get(n).map(|m| m.as_str())]; group 0 is the whole match. *)
Definition group (hay : rstr) (m : rmatch) (n : nat) : option rstr :=
  let '(st, s) := m in
  match (if Nat.eqb n 0 then Some (st, m_pos s) else cap_lookup n (m_caps s)) with
  | Some (a, b) => Some (firstn (b - a) (skipn a hay))
  | None => None
  end.

(** *** Building blocks of the patterns *)

Definition rseq (l : list re) : re := fold_right RSeq REps l.
Definition ralt (l : list re) : re :=
  match l with
  | [] => RClass (fun _ => false)
  | x :: t => fold_left RAlt t x
  end.
Definition rstar (a : re) : re := RRep 0 None true a.
Definition rplus (a : re) : re := RRep 1 None true a.
Definition ropt (a : re) : re := RRep 0 (Some 1%nat) true a.
Definition rexact (n : nat) (a : re) : re := RRep n (Some n) true a.
Definition rchar (c : Z) : re := RClass (Z.eqb c).

(** Simple case folding of [(?i)]: ASCII letters in both cases, plus the
    long s (U+017F) for [s] and the Kelvin sign (U+212A) for [k]. *)
Definition fold_eq (c x : Z) : bool :=
  let lx := if is_ascii_upper x then x + 32 else x in
  let lc := if is_ascii_upper c then c + 32 else c in
  (lc =? lx) && (is_ascii_alphabetic x || (c =? x))
  || ((lx =? 115) && (c =? 383)) || ((lx =? 107) && (c =? 8490)).

Definition rlit (s : String.string) : re := rseq (map rchar (lit s)).
Definition rlit_ci (s : String.string) : re := rseq (map (fun x => RClass (fold_eq x)) (lit s)).
Arguments rlit s%_string_scope.
Arguments rlit_ci s%_string_scope.

(** Unicode [\d] (decimal digits, general category Nd) in the Basic
    Multilingual Plane: the first code point of each block of ten. *)
Definition nd_blocks : list Z :=
  [48; 1632; 1776; 1984; 2406; 2534; 2662; 2790; 2918; 3046; 3174; 3302; 3430;
   3558; 3664; 3792; 3872; 4160; 4240; 6112; 6160; 6470; 6608; 6784; 6800;
   6992; 7088; 7232; 7248; 42528; 43216; 43264; 43472; 43504; 43600; 44016; 65296].

Definition is_unicode_digit (c : Z) : bool :=
  existsb (fun b => (b <=? c) && (c <? b + 10)) nd_blocks.

Definition c_digit : re := RClass is_ascii_digit.                       (* [0-9] *)
Definition c_udigit : re := RClass is_unicode_digit.                    (* \d *)
Definition c_space : re := RClass is_whitespace.                        (* \s *)
Definition c_not_nl : re := RClass (fun c => negb (c =? 10)).           (* [^\n], . *)


(** *** The patterns of lines 10-67 *)

(** [(?:DATUM|DATE|ERSTELLT\s+AM|STAND|GENERATED|CREATED|AS\s+OF)] under [(?i)]. *)
Definition date_keyword : re :=
  ralt [rlit_ci "DATUM"; rlit_ci "DATE"; rseq [rlit_ci "ERSTELLT"; rplus c_space; rlit_ci "AM"];
        rlit_ci "STAND"; rlit_ci "GENERATED"; rlit_ci "CREATED";
        rseq [rlit_ci "AS"; rplus c_space; rlit_ci "OF"]].

(** [[0-9]{2}\.[0-9]{2}\.[0-9]{4}|[0-9]{4}-[0-9]{2}-[0-9]{2}]. *)
Definition numeric_date : re :=
  RAlt (rseq [rexact 2 c_digit; rchar 46; rexact 2 c_digit; rchar 46; rexact 4 c_digit])
       (rseq [rexact 4 c_digit; rchar 45; rexact 2 c_digit; rchar 45; rexact 2 c_digit]).

(** [\s*[:\-]?\s*]. *)
Definition keyword_gap : re :=
  rseq [rstar c_space; ropt (RClass (fun c => (c =? 58) || (c =? 45))); rstar c_space].

(** [[-\u{2013}\u{2014}]]. *)
Definition dash : re := RClass (fun c => (c =? 45) || (c =? 8211) || (c =? 8212)).

(** [[[:alpha:].]] under [(?i)]. *)
Definition alpha_dot : re :=
  RClass (fun c => is_ascii_alphabetic c || (c =? 46) || (c =? 383) || (c =? 8490)).

(** [([0-3]?\d)\s+([[:alpha:].]+)\s+(20[0-9]{2})] with groups [n], [n+1], [n+2]. *)
Definition textual_date (n : nat) : re :=
  rseq [RGroup n (RSeq (ropt (RClass (fun c => (48 <=? c) && (c <=? 51)))) c_udigit);
        rplus c_space; RGroup (S n) (rplus alpha_dot); rplus c_space;
        RGroup (S (S n)) (rseq [rchar 50; rchar 48; rexact 2 c_digit])].

Definition DATE_RE : re :=
  rseq [RWordB; date_keyword; keyword_gap; RGroup 1 numeric_date].

Definition ANY_DATE_RE : re := rseq [RWordB; RGroup 1 numeric_date; RWordB].

(** [(?i)\bDATUM[^\n]*?] *)
Definition datum_prefix : re := rseq [RWordB; rlit_ci "DATUM"; RRep 0 None false c_not_nl].

Definition TEXTUAL_DATUM_RE : re := RSeq datum_prefix (textual_date 1).

Definition TEXTUAL_DATE_RE : re := rseq [RWordB; textual_date 1; RWordB].

Definition TEXTUAL_RANGE_RE : re :=
  rseq [datum_prefix; textual_date 1; rstar c_space; dash; rstar c_space; textual_date 4].

Definition NUMERIC_RANGE_RE : re :=
  rseq [RWordB; date_keyword; keyword_gap; RGroup 1 numeric_date;
        rstar c_space; dash; rstar c_space; RGroup 2 numeric_date].

(** [\b([A-Z]{2}[A-Z0-9]{9}[0-9])\b] *)
Definition ISIN_REGEX : re :=
  rseq [RWordB;
        RGroup 1 (rseq [rexact 2 (RClass is_ascii_upper);
                        rexact 9 (RClass (fun c => is_ascii_upper c || is_ascii_digit c));
                        c_digit]);
        RWordB].

(** [(?i)\bIBAN\b[:\s]*([A-Z]{2}[A-Z0-9\s]{8,40})]: under [(?i)] the class
    [[A-Z]] holds both cases and the two non-ASCII folds. *)
Definition ci_letter (c : Z) : bool := is_ascii_alphabetic c || (c =? 383) || (c =? 8490).

Definition IBAN_RE : re :=
  rseq [RWordB; rlit_ci "IBAN"; RWordB; rstar (RClass (fun c => (c =? 58) || is_whitespace c));
        RGroup 1 (rseq [rexact 2 (RClass ci_letter);
                        RRep 8 (Some 40%nat) true
                          (RClass (fun c => ci_letter c || is_ascii_digit c || is_whitespace c))])].

(** [POSITION[^\n]*\n([^\n]+)] *)
Definition POSITION_RE : re :=
  rseq [rlit "POSITION"; rstar c_not_nl; rchar 10; RGroup 1 (rplus c_not_nl)].

(** [Depottransfer eingegangen\s+(.+?)(?:\n|$)] *)
Definition TRANSFER_RE : re :=
  rseq [rlit "Depottransfer eingegangen"; rplus c_space;
        RGroup 1 (RRep 1 None false c_not_nl); RAlt (rchar 10) REnd].

(** [\b(20[0-9]{2})\b] *)
Definition YEAR_RE : re :=
  rseq [RWordB; RGroup 1 (rseq [rchar 50; rchar 48; rexact 2 c_digit]); RWordB].

(** [(?i)\b(?:SELL|VERKAUF)\b] *)
Definition SELL_RE : re := rseq [RWordB; RAlt (rlit_ci "SELL") (rlit_ci "VERKAUF"); RWordB].


(** ** String operations of [std] *)

Fixpoint starts_with (s p : rstr) : bool :=
  match p, s with
  | [], _ => true
  | x :: p', c :: s' => (c =? x) && starts_with s' p'
  | _ :: _, [] => false
  end.

(** [str::contains] with a string pattern. *)
Fixpoint contains (s p : rstr) : bool :=
  match s with
  | [] => starts_with [] p
  | _ :: t => starts_with s p || contains t p
  end.

(** [str::find]: the index (in characters) of the first occurrence. *)
Fixpoint find_at (s p : rstr) (i : nat) : option nat :=
  if starts_with s p then Some i
  else match s with
       | [] => None
       | _ :: t => find_at t p (S i)
       end.

(** [char::to_lowercase] and [char::to_uppercase] on ASCII and Latin-1
    (other code points are left unchanged); [ß] upper-cases to [SS]. *)
Definition lower_char (c : Z) : Z :=
  if is_ascii_upper c || ((192 <=? c) && (c <=? 222) && negb (c =? 215)) then c + 32 else c.

Definition upper_char (c : Z) : rstr :=
  if is_ascii_lower c || ((224 <=? c) && (c <=? 254) && negb (c =? 247)) then [c - 32]
  else if c =? 223 then [83; 83]
  else if c =? 255 then [376]
  else if c =? 181 then [924]
  else [c].

Definition to_lowercase (s : rstr) : rstr := map lower_char s.
Definition to_uppercase (s : rstr) : rstr := concat (map upper_char s).

Definition ascii_lower (c : Z) : Z := if is_ascii_upper c then c + 32 else c.

Definition eq_ignore_ascii_case (a b : rstr) : bool :=
  str_eqb (map ascii_lower a) (map ascii_lower b).

Definition is_empty (s : rstr) : bool := match s with [] => true | _ => false end.

(** [str::lines]: split at [\n], drop a final empty line, strip one
    trailing [\r] from each line. *)
Definition strip_cr (l : rstr) : rstr :=
  match rev l with
  | 13 :: r => rev r
  | _ => l
  end.

Definition str_lines (s : rstr) : list rstr :=
  let parts := split_on 10 s in
  let parts := match rev parts with
               | [] :: r => rev r
               | _ => parts
               end in
  map strip_cr parts.

Fixpoint join (sep : rstr) (l : list rstr) : rstr :=
  match l with
  | [] => []
  | [x] => x
  | x :: t => x ++ sep ++ join sep t
  end.

(** [i32::to_string]. *)
Definition z_to_string (z : Z) : rstr :=
  if z <? 0 then 45 :: digits (- z) else digits z.

(** UTF-8 bytes, for [as_bytes]. *)
Definition utf8_encode (c : Z) : list Z :=
  if c <? 128 then [c]
  else if c <? 2048 then [192 + c / 64; 128 + c mod 64]
  else if c <? 65536 then [224 + c / 4096; 128 + (c / 64) mod 64; 128 + c mod 64]
  else [240 + c / 262144; 128 + (c / 4096) mod 64; 128 + (c / 64) mod 64; 128 + c mod 64].

Definition as_bytes (s : rstr) : list Z := concat (map utf8_encode s).

Fixpoint digits_value (acc : Z) (ds : rstr) : Z :=
  match ds with
  | [] => acc
  | d :: t => digits_value (acc * 10 + (d - 48)) t
  end.

(** [str::parse::<u32>] and [str::parse::<i32>]: an optional sign ([+]
    only for unsigned) and at least one ASCII digit, within range. *)
Definition parse_u32 (s : rstr) : option Z :=
  let ds := match s with 43 :: t => t | _ => s end in
  if negb (is_empty ds) && forallb is_ascii_digit ds then
    let v := digits_value 0 ds in if v <=? 4294967295 then Some v else None
  else None.

Definition parse_i32 (s : rstr) : option Z :=
  let '(neg, ds) := match s with 43 :: t => (false, t) | 45 :: t => (true, t) | _ => (false, s) end in
  if negb (is_empty ds) && forallb is_ascii_digit ds then
    let v := if neg then - digits_value 0 ds else digits_value 0 ds in
    if (-2147483648 <=? v) && (v <=? 2147483647) then Some v else None
  else None.

(** ** [NaiveDate::parse_from_str] for the formats [%d.%m.%Y] and [%Y-%m-%d]

    chrono's parser: a numeric field skips leading white space and reads
    between 1 and its width of ASCII digits ([%Y]: width 4, or any number
    of digits after an explicit sign); a literal must match exactly; input
    left over is an error; the fields then make a date with
    [from_ymd_opt]. *)
Inductive field := FYear | FMonth | FDay.
Inductive fitem := FNum (f : field) | FLit (c : Z).

Fixpoint take_digits (max : nat) (s : rstr) : rstr * rstr :=
  match max, s with
  | S m, c :: t => if is_ascii_digit c then let '(a, b) := take_digits m t in (c :: a, b) else ([], s)
  | _, _ => ([], s)
  end.

Definition scan_number (max : nat) (s : rstr) : option (Z * rstr) :=
  let '(ds, rest) := take_digits max s in
  match ds with
  | [] => None
  | _ => Some (digits_value 0 ds, rest)
  end.

Definition scan_field (f : field) (s : rstr) : option (Z * rstr) :=
  let s := trim_start_by is_whitespace s in
  match f with
  | FYear =>
      match s with
      | 45 :: t => option_map (fun '(v, r) => (- v, r)) (scan_number (length t) t)
      | 43 :: t => scan_number (length t) t
      | _ => scan_number 4 s
      end
  | FMonth | FDay => scan_number 2 s
  end.

Record parsed := Parsed { p_year : option Z; p_month : option Z; p_day : option Z }.

Fixpoint parse_items (items : list fitem) (s : rstr) (p : parsed) : option (parsed * rstr) :=
  match items with
  | [] => Some (p, s)
  | FLit c :: r =>
      match s with
      | x :: t => if x =? c then parse_items r t p else None
      | [] => None
      end
  | FNum f :: r =>
      match scan_field f s with
      | None => None
      | Some (v, t) =>
          let p := match f with
                   | FYear => Parsed (Some v) (p_month p) (p_day p)
                   | FMonth => Parsed (p_year p) (Some v) (p_day p)
                   | FDay => Parsed (p_year p) (p_month p) (Some v)
                   end in
          parse_items r t p
      end
  end.

Definition parse_from_str (s : rstr) (items : list fitem) : option NaiveDate :=
  match parse_items items s (Parsed None None None) with
  | Some (Parsed (Some y) (Some m) (Some d), []) => from_ymd_opt y m d
  | _ => None
  end.

Definition fmt_dmy : list fitem := [FNum FDay; FLit 46; FNum FMonth; FLit 46; FNum FYear].
Definition fmt_ymd : list fitem := [FNum FYear; FLit 45; FNum FMonth; FLit 45; FNum FDay].

(** ** Date extraction (lines 412-537) *)

Definition byte_is (bs : list Z) (i : nat) (b : Z) : bool :=
  match nth_error bs i with Some x => x =? b | None => false end.

Definition parse_numeric_date_component (date_str : rstr) : option NaiveDate :=
  let trimmed := trim date_str in
  if contains trimmed [46] then parse_from_str trimmed fmt_dmy
  else if (blen trimmed =? 10) && byte_is (as_bytes trimmed) 4 45
          && byte_is (as_bytes trimmed) 7 45
  then parse_from_str trimmed fmt_ymd
  else None.

Definition range_separators : list rstr := [[32; 45; 32]; [32; 8211; 32]; [32; 8212; 32]].

Fixpoint try_separators (date_str : rstr) (seps : list rstr) : option NaiveDate :=
  match seps with
  | [] => None
  | sep :: r =>
      match find_at date_str sep O with
      | Some pos =>
          match parse_numeric_date_component (skipn (pos + length sep) date_str) with
          | Some d => Some d
          | None => try_separators date_str r
          end
      | None => try_separators date_str r
      end
  end.

Definition parse_numeric_date (date_str : rstr) : option NaiveDate :=
  match parse_numeric_date_component date_str with
  | Some d => Some d
  | None => try_separators date_str range_separators
  end.

Definition month_table : list (String.string * Z) :=
  [("jan", 1); ("januar", 1); ("january", 1);
   ("feb", 2); ("februar", 2); ("february", 2);
   ("mar", 3); ("march", 3); ("maerz", 3); ("marz", 3);
   ("apr", 4); ("april", 4);
   ("mai", 5); ("may", 5);
   ("jun", 6); ("juni", 6); ("june", 6);
   ("jul", 7); ("juli", 7); ("july", 7);
   ("aug", 8); ("august", 8);
   ("sep", 9); ("sept", 9); ("september", 9);
   ("okt", 10); ("oktober", 10); ("oct", 10); ("october", 10);
   ("nov", 11); ("november", 11);
   ("dez", 12); ("dezember", 12); ("dec", 12); ("december", 12)].

Definition month_name_to_number (month_raw : rstr) : option Z :=
  let month := to_lowercase (trim month_raw) in
  let month := replace_char 46 [] month in
  let month := replace_char 228 (lit "ae") month in
  let month := replace_char 246 (lit "oe") month in
  let month := replace_char 252 (lit "ue") month in
  let month := replace_char 223 (lit "ss") month in
  let month := filter (fun c => negb (is_whitespace c)) month in
  option_map snd (find (fun e => str_eqb month (lit (fst e))) month_table).

Definition parse_textual_date_components (day month yr : rstr) : option NaiveDate :=
  match parse_u32 (trim day) with
  | None => None
  | Some d =>
      match parse_i32 (trim yr) with
      | None => None
      | Some y =>
          match month_name_to_number month with
          | None => None
          | Some m => from_ymd_opt y m d
          end
      end
  end.

Fixpoint first_some {A B} (f : A -> option B) (l : list A) : option B :=
  match l with
  | [] => None
  | x :: t => match f x with Some y => Some y | None => first_some f t end
  end.

Definition textual_of (text : rstr) (m : rmatch) (a b c : nat) : option NaiveDate :=
  match group text m a, group text m b, group text m c with
  | Some d, Some mo, Some y => parse_textual_date_components d mo y
  | _, _, _ => None
  end.

Definition numeric_of (text : rstr) (m : rmatch) : option NaiveDate :=
  match group text m 1 with
  | Some g => parse_numeric_date g
  | None => None
  end.

(** The six steps of the cascade, in order; the first two return whatever
    their first match parses to. *)
Definition extract_date (text : rstr) : option NaiveDate :=
  match captures TEXTUAL_RANGE_RE text with
  | Some m => textual_of text m 4 5 6
  | None =>
  match captures NUMERIC_RANGE_RE text with
  | Some m =>
      match group text m 2 with
      | Some g => parse_numeric_date_component g
      | None => None
      end
  | None =>
  match first_some (fun m => textual_of text m 1 2 3) (captures_iter TEXTUAL_DATUM_RE text) with
  | Some d => Some d
  | None =>
  match first_some (numeric_of text) (captures_iter DATE_RE text) with
  | Some d => Some d
  | None =>
  match first_some (numeric_of text) (captures_iter ANY_DATE_RE text) with
  | Some d => Some d
  | None => first_some (fun m => textual_of text m 1 2 3) (captures_iter TEXTUAL_DATE_RE text)
  end end end end end.


(** ** [isin::ISIN::from_str] (the [isin] crate)

    Twelve characters: two ASCII upper-case letters, nine upper-case
    letters or digits and a check digit; the check digit is the ISO 6166
    one: letters expand to two digits ([A] = 10, ..., [Z] = 35), and the
    Luhn sum of the expansion (doubling from the rightmost digit on) must be
    completed to a multiple of ten. *)
Definition isin_expand (c : Z) : list Z :=
  if is_ascii_digit c then [c - 48] else [(c - 55) / 10; (c - 55) mod 10].

Fixpoint luhn_rev (ds : list Z) (dbl : bool) : Z :=
  match ds with
  | [] => 0
  | d :: t => (if dbl then (2 * d) / 10 + (2 * d) mod 10 else d) + luhn_rev t (negb dbl)
  end.

Definition isin_check_digit (payload : rstr) : Z :=
  (10 - luhn_rev (rev (concat (map isin_expand payload))) true mod 10) mod 10.

Definition isin_valid (s : rstr) : bool :=
  (length s =? 12)%nat
  && forallb is_ascii_upper (firstn 2 s)
  && forallb (fun c => is_ascii_upper c || is_ascii_digit c) (firstn 9 (skipn 2 s))
  && match nth_error s 11 with
     | Some ck => is_ascii_digit ck && (isin_check_digit (firstn 11 s) =? ck - 48)
     | None => false
     end.

(** ** IBAN (lines 539-602) *)

Definition is_valid_iban (iban : rstr) : bool :=
  let len := blen iban in
  if negb ((15 <=? len) && (len <=? 34)) then false
  else if negb (forallb is_ascii_alphanumeric iban) then false
  else
    match iban with
    | first :: second :: third :: fourth :: _ =>
        if negb (is_ascii_alphabetic first) || negb (is_ascii_alphabetic second)
           || negb (is_ascii_digit third) || negb (is_ascii_digit fourth)
        then false
        else
          let rearranged := skipn 4 iban ++ firstn 4 iban in
          let remainder :=
            fold_left (fun r ch =>
                         if is_ascii_digit ch then (r * 10 + (ch - 48)) mod 97
                         else let value := ch - 65 + 10 in
                              let r := (r * 10 + value / 10) mod 97 in
                              (r * 10 + value mod 10) mod 97)
                      rearranged 0 in
          remainder =? 1
    | _ => false
    end.

Definition extract_iban (text : rstr) : option rstr :=
  match captures IBAN_RE text with
  | None => None
  | Some m =>
      match group text m 1 with
      | None => None
      | Some raw =>
          let cleaned := filter (fun c => negb (is_whitespace c)) raw in
          if blen cleaned <? 15 then None
          else if negb (forallb is_ascii_alphanumeric cleaned) then None
          else
            let upper := to_uppercase cleaned in
            let max_len := Z.min (blen upper) 34 in
            (* lengths [max_len], [max_len - 1], ..., [15] *)
            first_some (fun len => let candidate := firstn len upper in
                                   if is_valid_iban candidate then Some candidate else None)
                       (rev (map (fun k => (15 + k)%nat) (seq 0 (Z.to_nat (max_len - 14)))))
      end
  end.

(** ** Document types (lines 141-180) *)

Definition kapitalmassnahme : rstr := lit "Kapitalma" ++ [223] ++ lit "nahme".

Definition types : list (rstr * rstr) :=
  [(lit "WERTPAPIERABRECHNUNG SPARPLAN", lit "Kauf_Sparplan");
   (lit "WERTPAPIERABRECHNUNG SAVEBACK", lit "Kauf_Saveback");
   (lit "WERTPAPIERABRECHNUNG", lit "Kauf");
   (lit "KOSTENINFORMATION ZUM SAVE-BACK", lit "Kosteninformation_Saveback");
   (lit "KOSTENINFORMATION ZUM SAVE", lit "Kosteninformation_Saveback");
   (lit "EX-POST KOSTENINFORMATION", lit "Ex_Post_Kosteninformation");
   (lit "JAHRESSTEUERBESCHEINIGUNG", lit "Jahressteuerbescheinigung");
   (lit "STEUERREPORT", lit "Steuerreport");
   (lit "KONTOAUSZUG", lit "Kontoauszug");
   (lit "DIVIDENDE", lit "Dividende");
   (lit "ZINSEN", lit "Zinsen");
   (lit "ZINSZAHLUNG", lit "Zinszahlung");
   (lit "Interest Payout", lit "Zinsen");
   (kapitalmassnahme, kapitalmassnahme);
   (lit "Savings Plan Execution", lit "Kauf_Sparplan");
   (lit "Securities Settlement", lit "Kauf");
   (lit "DEPOTTRANSFER", lit "Depottransfer");
   (lit "DEPOTTRANSFER EINGEGANGEN", lit "Depottransfer");
   (lit "DEPOTAUSZUG", lit "Depotauszug");
   (lit "STEUERLICHE OPTIMIERUNG", lit "Steuerliche_Optimierung");
   (lit "Depotauszug", lit "Depotauszug");
   (lit "Steuerliche Optimierung", lit "Steuerliche_Optimierung")].

Definition detect_type (text : rstr) : rstr :=
  let text_upper := to_uppercase text in
  match find (fun nr => contains text_upper (to_uppercase (fst nr))) types with
  | Some (_, replacement) => replacement
  | None => lit "Unbekannt"
  end.

Definition sell_corrected (text dt : rstr) : rstr :=
  if str_eqb dt (lit "Kauf") && is_match SELL_RE text then lit "Verkauf" else dt.

(** ** Identifier and asset scan (lines 183-258) *)

(** The tests of a line after the identifier line (lines 205-215). *)
Definition after_ok (after : rstr) : bool :=
  negb (is_empty after)
  && negb (contains after (lit "ISIN"))
  && negb (is_match ISIN_REGEX after)
  && (3 <? blen after)
  && negb (contains (to_lowercase after) (lit "gesamt"))
  && negb (eq_ignore_ascii_case (trim after) (lit "eur"))
  && negb (starts_with (to_lowercase after) (lit "betrag"))
  && negb (contains after (lit "Stk."))
  && negb (forallb is_ascii_digit after)
  && negb (starts_with (to_lowercase after) (lit "datum"))
  && negb (starts_with (to_lowercase after) (lit "date")).

(** The tests of a line before the identifier line (lines 228-240). *)
Definition before_ok (before : rstr) : bool :=
  negb (is_empty before)
  && negb (contains before (lit "ISIN"))
  && negb (is_match ISIN_REGEX before)
  && (3 <? blen before)
  && negb (forallb is_ascii_digit before)
  && negb (contains (to_lowercase before) (lit "gesamt"))
  && negb (eq_ignore_ascii_case (trim before) (lit "eur"))
  && negb (starts_with (to_lowercase before) (lit "betrag"))
  && negb (starts_with before (lit "POSITION"))
  && negb (contains (to_lowercase before) (lit "anzahl"))
  && negb (contains before (lit "Stk."))
  && negb (starts_with (to_lowercase before) (lit "datum"))
  && negb (starts_with (to_lowercase before) (lit "date")).

(** [for offset in 1..=2] over [lines.get(i + offset)]. *)
Fixpoint try_after (lines : list rstr) (i : nat) (offsets : list nat) : option rstr :=
  match offsets with
  | [] => None
  | o :: r =>
      match nth_error lines (i + o) with
      | Some l => let after := trim l in
                  if after_ok after then Some after else try_after lines i r
      | None => try_after lines i r
      end
  end.

(** [for offset in (1..=3).rev()] over [lines[i - offset]] when [i >= offset]. *)
Fixpoint try_before (lines : list rstr) (i : nat) (offsets : list nat) : option rstr :=
  match offsets with
  | [] => None
  | o :: r =>
      if Nat.leb o i then
        let before := trim (nth (i - o) lines []) in
        if before_ok before then Some before else try_before lines i r
      else try_before lines i r
  end.

(** The asset of the identifier [candidate] found in [line], line [i]
    (lines 197-250). *)
Definition find_asset (lines : list rstr) (i : nat) (line candidate : rstr) : rstr :=
  let found := if negb (str_eqb (trim line) candidate) then try_after lines i [1; 2]%nat
               else None in
  let found := match found with
               | None => try_before lines i (rev (seq 1 3))
               | Some a => Some a
               end in
  match found with
  | None => candidate
  | Some a => a
  end.

(** The inner loop over [ISIN_REGEX.captures_iter(line)]: the first
    candidate passing [ISIN::from_str]; the outer [None] is the [?] of
    line 193. *)
Fixpoint first_valid (line : rstr) (ms : list rmatch) : option (option rstr) :=
  match ms with
  | [] => Some None
  | m :: r =>
      match group line m 1 with
      | None => None
      | Some candidate => if isin_valid candidate then Some (Some candidate) else first_valid line r
      end
  end.

(** The outer loop over the lines: the identifier and its asset, if any. *)
Fixpoint scan_lines (lines : list rstr) (i : nat) (rest : list rstr)
    : option (option (rstr * rstr)) :=
  match rest with
  | [] => Some None
  | line :: rest' =>
      if contains line (lit "Umsatzsteuer") || contains line (lit "VAT") then
        scan_lines lines (S i) rest'
      else
        match first_valid line (captures_iter ISIN_REGEX line) with
        | None => None
        | Some (Some candidate) => Some (Some (candidate, find_asset lines i line candidate))
        | Some None => scan_lines lines (S i) rest'
        end
  end.

(** ** Summary documents (lines 261-285) *)

Definition summary_step (acc : bool * bool * list rstr) (line : rstr) : bool * bool * list rstr :=
  let '(fz, fd, assets) := acc in
  let lower := to_lowercase line in
  let '(fz, assets) := if contains lower (lit "cash zinsen") && negb fz
                       then (true, assets ++ [lit "Guthaben_Zinsen"]) else (fz, assets) in
  let '(fd, assets) := if contains lower (lit "geldmarkt dividende") && negb fd
                       then (true, assets ++ [lit "Geldmarkt_Dividende"]) else (fd, assets) in
  (fz, fd, assets).

Definition summary_scan (lines : list rstr) : bool * bool * list rstr :=
  fold_left summary_step lines (false, false, []).


Definition is_none {A} (o : option A) : bool := match o with None => true | Some _ => false end.

(** ** Report year (lines 332-351) *)

Definition year_step (dy : Z) (acc : option Z) (y : Z) : option Z :=
  if y =? dy - 1 then Some y
  else match acc with
       | Some existing => Some (Z.max existing y)
       | None => Some y
       end.

Definition found_years (text : rstr) (dy : Z) : list Z :=
  filter (fun y => (2000 <=? y) && (y <=? dy))
    (flat_map (fun m => match group text m 1 with
                        | Some g => match parse_i32 g with Some y => [y] | None => [] end
                        | None => []
                        end)
              (captures_iter YEAR_RE text)).

Definition referenced_year (text : rstr) (dy : Z) : Z :=
  match fold_left (year_step dy) (found_years text dy) None with
  | Some y => y
  | None => let prev := dy - 1 in if 2000 <=? prev then prev else dy
  end.

Definition is_report_type (dt : rstr) : bool :=
  str_eqb dt (lit "Kosteninformation_Saveback") || str_eqb dt (lit "Ex_Post_Kosteninformation")
  || str_eqb dt (lit "Jahressteuerbescheinigung") || str_eqb dt (lit "Steuerreport").

(** ** [parse_pdf_data] (lines 125-371)

    [current_year] is [chrono::Local::now().year()]. *)
Definition parse_pdf_data (current_year : Z) (text : rstr) : option PdfData :=
  if 1000000 <? blen text then None else
  match extract_date text with
  | None => None
  | Some d =>
  if (year d <? 2000) || (current_year + 5 <? year d) then None else
  let doc_type := sell_corrected text (detect_type text) in
  let lines := str_lines text in
  match scan_lines lines O lines with
  | None => None
  | Some found =>
  let isin := option_map fst found in
  let asset := option_map snd found in
  let '(found_zinsen, found_dividende, assets_vec) := summary_scan lines in
  let '(doc_type, asset) :=
    if is_none isin && is_none asset && (found_zinsen || found_dividende) then
      (match found_zinsen, found_dividende with
       | true, true => lit "Zinsen_und_Dividende"
       | true, false => lit "Zinsen"
       | false, true => lit "Dividende"
       | false, false => lit "Unbekannt"
       end, Some (join (lit "_und_") assets_vec))
    else (doc_type, asset) in
  (* fallbacks, lines 288-308 *)
  let asset :=
    match asset with
    | Some a => Some a
    | None =>
        let asset := match captures POSITION_RE text with
                     | Some caps => option_map trim (group text caps 1)
                     | None => None
                     end in
        let asset := if is_none asset
                        && (str_eqb doc_type (lit "Zinsen") || str_eqb doc_type (lit "Zinszahlung")
                            || str_eqb doc_type (lit "Dividende"))
                        && is_none isin
                     then Some (lit "Guthaben") else asset in
        match asset with Some a => Some a | None => Some (lit "Guthaben") end
    end in
  (* overrides, lines 311-353 *)
  let asset :=
    if str_eqb doc_type (lit "Depottransfer") then
      match captures TRANSFER_RE text with
      | Some caps => match group text caps 1 with Some t => Some (trim t) | None => asset end
      | None => asset
      end
    else asset in
  let asset := if str_eqb doc_type (lit "Depotauszug") then Some (lit "Depot") else asset in
  let asset := if str_eqb doc_type (lit "Steuerliche_Optimierung") then Some (lit "Steuer")
               else asset in
  let '(isin, asset) :=
    if str_eqb doc_type (lit "Kontoauszug") then
      (None, match extract_iban text with Some i => Some i | None => Some (lit "Konto") end)
    else (isin, asset) in
  let asset := if is_report_type doc_type then Some (z_to_string (referenced_year text (year d)))
               else asset in
  let final_asset := match asset with Some a => a | None => lit "Guthaben" end in
  let validated_asset := if is_empty (trim final_asset) || (500 <? blen final_asset)
                         then lit "Guthaben" else final_asset in
  Some (mkPdfData d doc_type isin validated_asset)
  end end.

(** ** The IBAN check as one number

    Move the first four characters to the end, replace each non-digit by
    its character code minus 55 (so [A] to [Z] become 10 to 35, and the
    lowercase [a] to [z], which [is_valid_iban] does not reject, become 42
    to 67), write these values as decimal digits one after the other and
    read the result as one decimal number; the IBAN is valid when that
    number is 1 modulo 97. *)
Definition iban_number (s : rstr) : Z :=
  fold_left (fun n c => if is_ascii_digit c then n * 10 + (c - 48) else n * 100 + (c - 55)) s 0.
Definition iban_mod97_spec (iban : rstr) : bool :=
  iban_number (skipn 4 iban ++ firstn 4 iban) mod 97 =? 1.

(** ** Properties of sanitized names *)

(** A character that survives every stage of [clean_name]. *)
Definition char_ok (c : Z) : bool :=
  retain_ok c && negb (is_dangerous c) && negb (is_ws_or_comma c).

Fixpoint no_double (s : rstr) : bool :=
  match s with
  | a :: ((b :: _) as t) => negb (is_underscore a && is_underscore b) && no_double t
  | _ => true
  end.

Definition head_us (s : rstr) : bool :=
  match s with
  | c :: _ => is_underscore c
  | [] => false
  end.

(** No forbidden character, no [__], no [_] at either end. *)
Definition sanitized (s : rstr) : bool :=
  forallb char_ok s && no_double s && negb (head_us s) && negb (head_us (rev s)).

(** ** Sample documents *)

Definition depot_text : rstr := text_of ["Depotauszug"; "DATUM 05.11.2025"; "ISIN CNE1000007Z2"].
Definition depot_record : PdfData :=
  mkPdfData (mkDate 2025 11 5) (lit "Depotauszug") (Some (lit "CNE1000007Z2")) (lit "Depot").

Definition konto_text : rstr :=
  text_of ["KONTOAUSZUG"; "DATUM 01.08.2025"; "IBAN: DE89 3704 0044 0532 0130 00"; "ISIN IE00BZ163G84"].
Definition konto_record : PdfData :=
  mkPdfData (mkDate 2025 8 1) (lit "Kontoauszug") None (lit "DE89370400440532013000").

(** ** Predicates used by the properties below *)

(** The dates [NaiveDate::from_ymd_opt] accepts. *)
Definition valid_date (d : NaiveDate) : bool :=
  (-262143 <=? year d) && (year d <=? 262142) && (1 <=? month d) && (month d <=? 12)
  && (1 <=? day d) && (day d <=? days_in_month (year d) (month d)).

(** Every document type [parse_pdf_data] can produce: the replacements of
    the keyword table and the names set at lines 169, 179 and 278-283. *)
Definition categories : list rstr :=
  map snd types ++ [lit "Verkauf"; lit "Zinsen_und_Dividende"; lit "Zinsen"; lit "Dividende";
                    lit "Unbekannt"].

(** A character that is neither a control character nor one of the
    characters of [DANGEROUS_CHARS_RE] (among them [.], [/] and the
    backslash). *)
Definition stem_char (c : Z) : bool := negb (is_control c) && negb (is_dangerous c).

(** ** The matcher, relationally

    A relational reading of patterns, to state when [mt] must find a match:
    [mrel r s s'] says that [r] can match from [s] and end in [s'], with the
    same captures [mt] records.  The loop of [RRep] is [rep_loop]; past the
    minimum count an iteration must consume input, as in [mt]. *)
Definition rep_loop (lo : nat) (hi : option nat) (greedy : bool) (a : re)
    (k : mstate -> option mstate) :=
  fix loop (fuel : nat) (i : nat) (s : mstate) {struct fuel} : option mstate :=
    match fuel with
    | O => None
    | S f =>
        if Nat.ltb i lo then mt a s (fun s' => loop f (S i) s')
        else if match hi with Some h => Nat.leb h i | None => false end then k s
        else if greedy then
          match mt a s (fun s' => if Nat.eqb (m_pos s') (m_pos s) then None
                                  else loop f (S i) s') with
          | Some x => Some x
          | None => k s
          end
        else
          match k s with
          | Some x => Some x
          | None => mt a s (fun s' => if Nat.eqb (m_pos s') (m_pos s) then None
                                      else loop f (S i) s')
          end
    end.

Definition hi_open (hi : option nat) (i : nat) : Prop :=
  match hi with Some h => (i < h)%nat | None => True end.

Inductive mrel : re -> mstate -> mstate -> Prop :=
| M_eps : forall s, mrel REps s s
| M_class : forall p s c t, m_rest s = c :: t -> p c = true -> mrel (RClass p) s (advance s c t)
| M_seq : forall a b s s1 s2, mrel a s s1 -> mrel b s1 s2 -> mrel (RSeq a b) s s2
| M_altl : forall a b s s1, mrel a s s1 -> mrel (RAlt a b) s s1
| M_altr : forall a b s s1, mrel b s s1 -> mrel (RAlt a b) s s1
| M_group : forall n a s s1, mrel a s s1 -> mrel (RGroup n a) s (set_cap n (m_pos s) s1)
| M_wordb : forall s, xorb (word_opt (m_prev s)) (word_opt (hd_error (m_rest s))) = true ->
    mrel RWordB s s
| M_end : forall s, m_rest s = [] -> mrel REnd s s
| M_rep : forall lo hi g a s s1, reprel lo hi a O s s1 -> mrel (RRep lo hi g a) s s1
with reprel : nat -> option nat -> re -> nat -> mstate -> mstate -> Prop :=
| R_stop : forall lo hi a i s, (lo <= i)%nat -> reprel lo hi a i s s
| R_step : forall lo hi a i s s1 s2,
    ((i < lo)%nat \/ ((lo <= i)%nat /\ hi_open hi i /\ m_pos s1 <> m_pos s)) ->
    mrel a s s1 -> reprel lo hi a (S i) s1 s2 -> reprel lo hi a i s s2.

(** * A shallow embedding of [src/src/main.rs] *)

(** ** [is_already_renamed] (lines 47-54) *)

(** [[A-Za-z_]] and [[A-Z0-9]]. *)
Definition letter_us (c : Z) : bool := is_ascii_alphabetic c || (c =? 95).
Definition upper_or_digit (c : Z) : bool := is_ascii_upper c || is_ascii_digit c.

(** [RENAMED_PATTERN] of main.rs without its [^]. *)
Definition RENAMED_PATTERN : re :=
  rseq [rexact 4 c_udigit; rchar 95; rexact 2 c_udigit; rchar 95; rexact 2 c_udigit; rchar 95;
        rplus (RClass letter_us);
        ropt (RGroup 1 (rseq [rchar 95; rexact 2 (RClass is_ascii_upper);
                              rexact 9 (RClass upper_or_digit); c_udigit]));
        rchar 95; rplus c_not_nl; rchar 46; rlit "pdf"; REnd].

(** [RENAMED_PATTERN.is_match(filename)]: [^] anchors the pattern at the
    start, so only the attempt at position 0 can match. *)
Definition is_already_renamed (filename : rstr) : bool :=
  match mt RENAMED_PATTERN (MS None filename O []) Some with
  | Some _ => true
  | None => false
  end.

(** ** The loop of [process_folder] (lines 96-203)

    One iteration of the [for] loop over the entries of the walk: the
    checks, in the order of the source, and what happens to the entry.
    The answers of the file system are inputs.  [path.parent()] exists for
    every entry that has a file name.  [fs::rename] and its error message
    both end the iteration, so an attempted rename is one outcome. *)
(** The outcome of the body of the loop of [process_folder] for one entry. *)
Inductive outcome :=
| NotPdf | Outside | NoFileName | TooLong | AlreadyRenamed | TooLarge | ExtractError
| ParseFailed | Panicked | NewNameTooLong | RefusedOutside | NoCanonicalParent
| Renamed (new_name : rstr).

(** What the file system answers for one entry. *)
Record entry_io := EntryIO {
  io_is_file : bool;                 (* [entry.file_type().is_file()] *)
  io_inside : bool;                  (* [path.starts_with(&canonical_folder)] *)
  io_size : option Z;                (* [path.metadata()], when it succeeds *)
  io_text : option rstr;             (* [extract_pdf_text(path)], when it succeeds *)
  io_canon_new : option bool;        (* the first canonicalization succeeded; result within folder *)
  io_canon_parent : option bool      (* [canonicalize()] of the parent; result within folder *)
}.

Definition process_entry (current_year : Z) (path : rstr) (io : entry_io) : outcome :=
  if negb (io_is_file io && match path_extension path with
                             | Some e => eq_ignore_ascii_case e (lit "pdf")
                             | None => false
                             end) then NotPdf
  else if negb (io_inside io) then Outside
  else match file_name path with
  | None => NoFileName
  | Some orig_filename =>
  if 255 <? blen orig_filename then TooLong
  else if is_already_renamed orig_filename then AlreadyRenamed
  else if match io_size io with Some n => 100000000 <? n | None => false end then TooLarge
  else match io_text io with
  | None => ExtractError
  | Some text =>
  match parse_pdf_data current_year text with
  | None => ParseFailed
  | Some pdf_data =>
  match build_filename pdf_data orig_filename with
  | None => Panicked
  | Some new_name =>
  if 255 <? blen new_name then NewNameTooLong
  else match io_canon_new io with
  | Some false => RefusedOutside
  | _ =>
  match io_canon_parent io with
  | Some true => Renamed new_name
  | Some false => RefusedOutside
  | None => NoCanonicalParent
  end end end end end end.

(** A scanned document in a sub-folder, and the name it is given. *)
Definition scan_io : entry_io := EntryIO true true (Some 1000) (Some depot_text) None (Some true).
Definition depot_name : rstr := lit "2025_11_05_Depotauszug_CNE1000007Z2_Depot.pdf".


(** * Proofs *)

(** ** Tests of the repository, replayed *)

Example build_filename_double_isin :
  build_filename (mk_test 2026 1 6 "Kauf" (Some "IE00BZ163G84"%string) "IE00BZ163G84")
                 (lit "original.pdf")
  = Some (lit "2026_01_06_Kauf_IE00BZ163G84.pdf").
Proof. reflexivity. Qed.

Example build_filename_normal :
  build_filename (mk_test 2025 7 2 "Kauf_Sparplan" (Some "IE00BK1PV551"%string) "MSCI World USD (Dist)")
                 (lit "orig.pdf")
  = Some (lit "2025_07_02_Kauf_Sparplan_IE00BK1PV551_MSCI_World_USD_Dist.pdf").
Proof. reflexivity. Qed.

Example build_filename_bad_ext :
  build_filename (mk_test 2024 1 1 "Kauf" None "Test Asset") (lit "test../../../etc/passwd")
  = Some (lit "2024_01_01_Kauf_Test_Asset.pdf").
Proof. reflexivity. Qed.

Example clean_name_tests :
  clean_name (lit "../../../etc/passwd") = lit "etc_passwd" /\
  clean_name (lit "Test   (ETF) / Name.") = lit "Test_ETF_Name" /\
  clean_name (lit "  _Multiple__underscores__  ") = lit "Multiple_underscores" /\
  clean_name (lit "file<>:" ++ [34] ++ lit "|?*name") = lit "file_name".
Proof. repeat split; reflexivity. Qed.

(** ** Sanitization *)

Lemma no_double_cons : forall a s,
  no_double (a :: s) = negb (is_underscore a && head_us s) && no_double s.
Proof. intros a [|b s]; simpl; [rewrite andb_false_r|]; reflexivity. Qed.

Lemma utf8_len_pos : forall c, 1 <= utf8_len c.
Proof. intro c; unfold utf8_len; repeat destruct (_ <? _); lia. Qed.

Lemma blen_nonneg : forall s, 0 <= blen s.
Proof. induction s; simpl; [lia|]. pose proof (utf8_len_pos a); lia. Qed.

Lemma blen_app : forall a b, blen (a ++ b) = blen a + blen b.
Proof. induction a; intros; simpl; [reflexivity|]. rewrite IHa; lia. Qed.

Lemma blen_rev : forall s, blen (rev s) = blen s.
Proof. induction s; simpl; [reflexivity|]. rewrite blen_app; simpl; lia. Qed.

Lemma drop_while_suffix : forall p s, exists d, s = d ++ drop_while p s.
Proof.
  induction s as [|c t IH]; simpl; [exists []; reflexivity|].
  destruct (p c); [destruct IH as [d Hd]; exists (c :: d); simpl; congruence|].
  exists []; reflexivity.
Qed.

Lemma drop_while_head : forall p s, match drop_while p s with c :: _ => p c = false | [] => True end.
Proof.
  induction s as [|c t IH]; simpl; [exact I|].
  destruct (p c) eqn:E; [exact IH | exact E].
Qed.

Lemma drop_while_id : forall p s,
  match s with c :: _ => p c = false | [] => True end -> drop_while p s = s.
Proof. intros p [|c t] H; simpl; [reflexivity|]. rewrite H; reflexivity. Qed.

Lemma trim_end_prefix : forall p s, exists q, s = trim_end_by p s ++ q.
Proof.
  intros p s; unfold trim_end_by.
  destruct (drop_while_suffix p (rev s)) as [d Hd].
  exists (rev d).
  rewrite <- rev_app_distr, <- Hd, rev_involutive; reflexivity.
Qed.

Lemma forallb_app_l : forall (q : Z -> bool) a b, forallb q (a ++ b) = true -> forallb q a = true.
Proof. intros q a b H; rewrite forallb_app in H; apply andb_prop in H; tauto. Qed.

Lemma no_double_app_l : forall a b, no_double (a ++ b) = true -> no_double a = true.
Proof.
  induction a as [|x a IH]; intros b H; [reflexivity|].
  destruct a as [|y a]; [reflexivity|].
  simpl in H |- *. apply andb_prop in H as [H1 H2].
  rewrite H1; simpl. apply (IH b); exact H2.
Qed.

Lemma no_double_suffix : forall a b, no_double (a ++ b) = true -> no_double b = true.
Proof.
  induction a as [|x a IH]; intros b H; [exact H|].
  apply IH. simpl in H. destruct (a ++ b) as [|y r]; [reflexivity|].
  apply andb_prop in H; tauto.
Qed.

Lemma head_us_prefix : forall a b, head_us (a ++ b) = false -> head_us a = false.
Proof. intros [|x a] b H; [reflexivity|exact H]. Qed.

Lemma replace_each_forallb : forall p (q : Z -> bool) s,
  q underscore = true -> p underscore = false -> forallb q s = true ->
  forallb (fun c => q c && negb (p c)) (replace_each p s) = true.
Proof.
  intros p q s Hu Hp; induction s as [|c t IH]; simpl; [reflexivity|].
  intro H; apply andb_prop in H as [H1 H2]. rewrite (IH H2), andb_true_r.
  destruct (p c) eqn:E; simpl.
  - rewrite Hu, Hp; reflexivity.
  - rewrite H1, E; reflexivity.
Qed.

Lemma replace_runs_forallb : forall p (q : Z -> bool) b s,
  q underscore = true -> (forall c, In c s -> p c = false -> q c = true) ->
  forallb q (replace_runs_aux p b s) = true.
Proof.
  intros p q b s Hu; revert b; induction s as [|c t IH]; intros b H; simpl; [reflexivity|].
  assert (Ht : forall c', In c' t -> p c' = false -> q c' = true) by (intros; apply H; simpl; auto).
  destruct (p c) eqn:E.
  - destruct b; simpl; [apply IH; exact Ht|]. rewrite Hu; apply IH; exact Ht.
  - simpl. rewrite (H c (or_introl eq_refl) E). apply IH; exact Ht.
Qed.

Lemma replace_runs_not_p : forall p b s,
  p underscore = false -> forallb (fun c => negb (p c)) (replace_runs_aux p b s) = true.
Proof.
  intros p b s Hu; revert b; induction s as [|c t IH]; intro b; simpl; [reflexivity|].
  destruct (p c) eqn:E.
  - destruct b; simpl; [apply IH|]. rewrite Hu; apply IH.
  - simpl; rewrite E; apply IH.
Qed.

Lemma replace_runs_us_no_double : forall b s,
  no_double (replace_runs_aux is_underscore b s) = true /\
  (b = true -> head_us (replace_runs_aux is_underscore b s) = false).
Proof.
  intros b s; revert b; induction s as [|c t IH]; intro b; simpl; [split; reflexivity|].
  destruct (is_underscore c) eqn:E.
  - destruct b.
    + apply IH.
    + destruct (IH true) as [H1 H2]. split; [|discriminate].
      rewrite no_double_cons, (H2 eq_refl), H1. reflexivity.
  - destruct (IH false) as [H1 _]. split; [|intros _; exact E].
    rewrite no_double_cons, E, H1. reflexivity.
Qed.

Lemma replace_runs_id : forall p b s,
  forallb (fun c => negb (p c)) s = true -> replace_runs_aux p b s = s.
Proof.
  intros p b s; revert b; induction s as [|c t IH]; intros b H; simpl; [reflexivity|].
  simpl in H; apply andb_prop in H as [H1 H2].
  destruct (p c); [discriminate|]. rewrite IH; auto.
Qed.

Lemma replace_runs_us_id : forall b s,
  no_double s = true -> (b = true -> head_us s = false) ->
  replace_runs_aux is_underscore b s = s.
Proof.
  intros b s; revert b; induction s as [|c t IH]; intros b H Hb; simpl; [reflexivity|].
  rewrite no_double_cons in H; apply andb_prop in H as [H1 H2].
  destruct (is_underscore c) eqn:E.
  - destruct b; [specialize (Hb eq_refl); simpl in Hb; congruence|].
    f_equal; [unfold is_underscore in E; apply Z.eqb_eq in E; symmetry; exact E|].
    apply IH; [exact H2|]. intros _. simpl in H1. destruct (head_us t); [discriminate|reflexivity].
  - f_equal. apply IH; [exact H2|discriminate].
Qed.

Lemma sanitized_spec : forall s,
  sanitized s = true <->
  forallb char_ok s = true /\ no_double s = true /\ head_us s = false /\ head_us (rev s) = false.
Proof.
  intro s; unfold sanitized.
  destruct (forallb char_ok s), (no_double s), (head_us s), (head_us (rev s));
    simpl; intuition congruence.
Qed.

Lemma drop_while_us_head : forall s, head_us (drop_while is_underscore s) = false.
Proof.
  intro s; pose proof (drop_while_head is_underscore s) as H.
  destruct (drop_while is_underscore s); [reflexivity|exact H].
Qed.

Lemma trim_us_props : forall (q : Z -> bool) s,
  forallb q s = true -> no_double s = true ->
  let t := trim_by is_underscore s in
  forallb q t = true /\ no_double t = true /\ head_us t = false /\ head_us (rev t) = false.
Proof.
  intros q s Hq Hd t.
  unfold t, trim_by, trim_start_by.
  set (t1 := drop_while is_underscore s).
  destruct (drop_while_suffix is_underscore s) as [d Hs]; fold t1 in Hs.
  assert (Hq1 : forallb q t1 = true)
    by (rewrite Hs, forallb_app in Hq; apply andb_prop in Hq; tauto).
  assert (Hd1 : no_double t1 = true) by (rewrite Hs in Hd; exact (no_double_suffix _ _ Hd)).
  assert (Hh1 : head_us t1 = false) by apply drop_while_us_head.
  destruct (trim_end_prefix is_underscore t1) as [r Hr].
  rewrite Hr in Hq1, Hd1, Hh1.
  repeat split.
  - exact (forallb_app_l _ _ _ Hq1).
  - exact (no_double_app_l _ _ Hd1).
  - exact (head_us_prefix _ _ Hh1).
  - unfold trim_end_by; rewrite rev_involutive; apply drop_while_us_head.
Qed.

Lemma forallb_filter_self : forall (p : Z -> bool) s, forallb p (filter p s) = true.
Proof.
  intros p s; induction s as [|c t IH]; simpl; [reflexivity|].
  destruct (p c) eqn:E; simpl; [rewrite E|]; auto.
Qed.

Lemma invalid_asset_name_sanitized : sanitized (lit "Invalid_Asset_Name") = true.
Proof. reflexivity. Qed.

Lemma clean_name_sanitized : forall x, sanitized (clean_name x) = true.
Proof.
  intro x; unfold clean_name.
  destruct (500 <? blen x); [apply invalid_asset_name_sanitized|].
  set (s1 := filter retain_ok x).
  assert (H1 : forallb retain_ok s1 = true) by apply forallb_filter_self.
  set (s2 := replace_each is_dangerous s1).
  assert (H2 : forallb (fun c => retain_ok c && negb (is_dangerous c)) s2 = true)
    by (apply replace_each_forallb; [reflexivity|reflexivity|exact H1]).
  set (s3 := replace_runs is_ws_or_comma s2).
  assert (H3 : forallb char_ok s3 = true).
  { apply replace_runs_forallb; [reflexivity|].
    intros c Hin Hw. rewrite forallb_forall in H2. specialize (H2 c Hin).
    unfold char_ok; rewrite H2, Hw; reflexivity. }
  set (s4 := replace_runs is_underscore s3).
  assert (H4 : forallb char_ok s4 = true).
  { apply replace_runs_forallb; [reflexivity|].
    intros c Hin _. rewrite forallb_forall in H3; exact (H3 c Hin). }
  assert (H5 : no_double s4 = true) by apply replace_runs_us_no_double.
  destruct (trim_us_props char_ok s4 H4 H5) as (A & B & C & D).
  apply sanitized_spec; auto.
Qed.

Lemma blen_filter : forall p s, blen (filter p s) <= blen s.
Proof.
  intros p s; induction s as [|c t IH]; simpl; [lia|].
  pose proof (utf8_len_pos c). destruct (p c); simpl; lia.
Qed.

Lemma blen_replace_each : forall p s, blen (replace_each p s) <= blen s.
Proof.
  intros p s; unfold replace_each; induction s as [|c t IH]; simpl; [lia|].
  pose proof (utf8_len_pos c). assert (utf8_len underscore = 1) by reflexivity.
  destruct (p c); cbv beta iota; lia.
Qed.

Lemma blen_replace_runs : forall p b s, blen (replace_runs_aux p b s) <= blen s.
Proof.
  intros p b s; revert b; induction s as [|c t IH]; intro b; simpl; [lia|].
  pose proof (utf8_len_pos c); pose proof (IH true); pose proof (IH false).
  assert (utf8_len underscore = 1) by reflexivity.
  destruct (p c); [destruct b|]; cbn [blen]; lia.
Qed.

Lemma blen_trim_by : forall p s, blen (trim_by p s) <= blen s.
Proof.
  intros p s; unfold trim_by, trim_start_by.
  destruct (drop_while_suffix p s) as [d Hd].
  destruct (trim_end_prefix p (drop_while p s)) as [r Hr].
  pose proof (blen_nonneg d); pose proof (blen_nonneg r).
  assert (E1 : blen s = blen d + blen (drop_while p s)) by (rewrite Hd at 1; apply blen_app).
  assert (E2 : blen (drop_while p s) = blen (trim_end_by p (drop_while p s)) + blen r)
    by (rewrite Hr at 1; apply blen_app).
  lia.
Qed.

Lemma clean_name_blen : forall x, blen (clean_name x) <= 500.
Proof.
  intro x; unfold clean_name.
  destruct (500 <? blen x) eqn:E; [vm_compute; discriminate|].
  apply Z.ltb_ge in E.
  pose proof (blen_filter retain_ok x).
  pose proof (blen_replace_each is_dangerous (filter retain_ok x)).
  pose proof (blen_replace_runs is_ws_or_comma false (replace_each is_dangerous (filter retain_ok x))).
  pose proof (blen_replace_runs is_underscore false
    (replace_runs is_ws_or_comma (replace_each is_dangerous (filter retain_ok x)))).
  pose proof (blen_trim_by is_underscore (replace_runs is_underscore
    (replace_runs is_ws_or_comma (replace_each is_dangerous (filter retain_ok x))))).
  unfold replace_runs in *. lia.
Qed.

Lemma filter_id : forall (p : Z -> bool) s, forallb p s = true -> filter p s = s.
Proof.
  intros p s; induction s as [|c t IH]; simpl; [reflexivity|].
  intro H; apply andb_prop in H as [H1 H2]. rewrite H1, IH; auto.
Qed.

Lemma replace_each_id : forall p s,
  forallb (fun c => negb (p c)) s = true -> replace_each p s = s.
Proof.
  intros p s; induction s as [|c t IH]; simpl; [reflexivity|].
  intro H; apply andb_prop in H as [H1 H2].
  destruct (p c); [discriminate|]. rewrite IH; auto.
Qed.

Lemma forallb_impl : forall (p q : Z -> bool) s,
  (forall c, p c = true -> q c = true) -> forallb p s = true -> forallb q s = true.
Proof.
  intros p q s H; induction s as [|c t IH]; simpl; [reflexivity|].
  intro Hs; apply andb_prop in Hs as [H1 H2]. rewrite (H c H1); auto.
Qed.

Lemma clean_name_id : forall s, sanitized s = true -> blen s <= 500 -> clean_name s = s.
Proof.
  intros s Hs Hb. apply sanitized_spec in Hs as (Hc & Hd & Hh & Hr).
  unfold clean_name.
  replace (500 <? blen s) with false by (symmetry; apply Z.ltb_ge; lia).
  rewrite filter_id
    by (apply (forallb_impl char_ok); [|exact Hc];
        intros c Hc'; unfold char_ok in Hc'; destruct (retain_ok c); [reflexivity|discriminate]).
  rewrite replace_each_id
    by (apply (forallb_impl char_ok); [|exact Hc];
        intros c Hc'; unfold char_ok in Hc'; destruct (is_dangerous c);
        [rewrite andb_false_r in Hc'; discriminate|reflexivity]).
  unfold replace_runs.
  rewrite (replace_runs_id is_ws_or_comma false s)
    by (apply (forallb_impl char_ok); [|exact Hc];
        intros c Hc'; unfold char_ok in Hc'; destruct (is_ws_or_comma c);
        [rewrite andb_false_r in Hc'; discriminate|reflexivity]).
  rewrite replace_runs_us_id by (auto; discriminate).
  unfold trim_by, trim_start_by, trim_end_by.
  rewrite (drop_while_id is_underscore s) by (destruct s; [exact I|exact Hh]).
  rewrite (drop_while_id is_underscore (rev s)) by (destruct (rev s); [exact I|exact Hr]).
  apply rev_involutive.
Qed.

(** Claim C9. [clean_name] is idempotent: cleaning a cleaned name changes
    nothing. *)
Theorem clean_name_idempotent : forall x, clean_name (clean_name x) = clean_name x.
Proof.
  intro x. apply clean_name_id; [apply clean_name_sanitized | apply clean_name_blen].
Qed.

(** ** [build_filename] *)

Lemma truncate_prefix : forall n s t, truncate n s = Some t -> exists q, s = t ++ q.
Proof.
  intros n s; revert n; induction s as [|c r IH]; intros n t H; simpl in H.
  - inversion H; subst; exists []; reflexivity.
  - destruct (n <=? 0); [inversion H; subst; exists (c :: r); reflexivity|].
    destruct (n <? utf8_len c); [discriminate|].
    destruct (truncate (n - utf8_len c) r) as [t'|] eqn:E; [|discriminate].
    simpl in H; inversion H; subst.
    destruct (IH _ _ E) as [q Hq]; exists q; rewrite Hq; reflexivity.
Qed.

Lemma sanitized_trim_end_prefix : forall s t q,
  sanitized s = true -> s = t ++ q -> sanitized (trim_end_by is_underscore t) = true.
Proof.
  intros s t q Hs Ht. apply sanitized_spec in Hs as (Hc & Hd & Hh & _).
  destruct (trim_end_prefix is_underscore t) as [r Hr].
  assert (E : s = trim_end_by is_underscore t ++ (r ++ q))
    by (rewrite Ht, Hr at 1; rewrite app_assoc; reflexivity).
  rewrite E in Hc, Hd, Hh.
  apply sanitized_spec; repeat split.
  - exact (forallb_app_l _ _ _ Hc).
  - exact (no_double_app_l _ _ Hd).
  - exact (head_us_prefix _ _ Hh).
  - unfold trim_end_by; rewrite rev_involutive; apply drop_while_us_head.
Qed.

Lemma namepart_of_sanitized : forall a n, namepart_of a = Some n -> sanitized n = true.
Proof.
  intros a n; unfold namepart_of.
  destruct (50 <? blen (clean_name a)).
  - destruct (truncate 50 (clean_name a)) as [t|] eqn:E; [|discriminate].
    intro H; inversion H; subst.
    destruct (truncate_prefix _ _ _ E) as [q Hq].
    exact (sanitized_trim_end_prefix _ _ _ (clean_name_sanitized a) Hq).
  - intro H; inversion H; subst; apply clean_name_sanitized.
Qed.

Lemma ext_part_ok : forall o, ext_ok (ext_part o) = true.
Proof.
  intro o; unfold ext_part.
  destruct (path_extension o); [destruct (ext_ok r) eqn:E; [exact E|]|]; reflexivity.
Qed.

Lemma blen_ascii : forall s, forallb is_ascii_alphanumeric s = true -> blen s = Z.of_nat (length s).
Proof.
  induction s as [|c t IH]; simpl; [reflexivity|].
  intro H; apply andb_prop in H as [H1 H2]. rewrite (IH H2).
  assert (utf8_len c = 1).
  { unfold is_ascii_alphanumeric, is_ascii_alphabetic, is_ascii_upper, is_ascii_lower,
      is_ascii_digit in H1.
    unfold utf8_len. destruct (c <? 128) eqn:E; [reflexivity|].
    apply Z.ltb_ge in E.
    repeat (apply orb_true_iff in H1 as [H1|H1]); apply andb_prop in H1 as [_ H1];
      apply Z.leb_le in H1; lia. }
  lia.
Qed.

(** Claim C1, as amended.  A file name built by [build_filename] (when it
    does not panic) is the formatted date, the cleaned document type
    ([clean_name] of the type with spaces replaced by [_]), the identifier
    if it has 12 ASCII alphanumeric characters, the cleaned asset name
    ([clean_name] of the asset, cut to 50 bytes and stripped of trailing
    [_] when it is longer) and the extension, joined by [_] (and [.] before
    the extension), with the asset name dropped when it equals the
    identifier.  The document type and asset parts hold no control, bidi,
    dangerous, whitespace or comma character, no [__] and no leading or
    trailing [_]; other characters (such as [ß] or [-]) may remain.  The
    extension has at most 10 ASCII alphanumerics, and is [pdf] whenever the
    candidate extension is missing, longer than 10 bytes or not
    alphanumeric. *)
Theorem build_filename_structure : forall r o s,
  build_filename r o = Some s ->
  exists dt np e,
    dt = clean_name (replace_char 32 [underscore] (doc_type r)) /\
    (blen (clean_name (asset r)) <= 50 -> np = clean_name (asset r)) /\
    (50 < blen (clean_name (asset r)) ->
       exists t, truncate 50 (clean_name (asset r)) = Some t /\ np = trim_end_by is_underscore t) /\
    e = ext_part o /\
    sanitized dt = true /\ sanitized np = true /\ ext_ok e = true /\
    (path_extension o = None -> e = lit "pdf") /\
    (forall x, path_extension o = Some x -> ext_ok x = false -> e = lit "pdf") /\
    (forall x, path_extension o = Some x -> ext_ok x = true -> e = x) /\
    ((isin_part (isin r) = None /\
      s = format_date (date r) ++ [underscore] ++ dt ++ [underscore] ++ np ++ [46] ++ e)
     \/ exists i, isin r = Some i /\ length i = 12%nat /\
          forallb is_ascii_alphanumeric i = true /\
          ((np <> i /\ s = format_date (date r) ++ [underscore] ++ dt ++ [underscore] ++ i
                           ++ [underscore] ++ np ++ [46] ++ e)
           \/ (np = i /\ s = format_date (date r) ++ [underscore] ++ dt ++ [underscore] ++ i
                             ++ [46] ++ e))).
Proof.
  intros r o s H; unfold build_filename in H.
  destruct (namepart_of (asset r)) as [np|] eqn:Enp; [|discriminate].
  injection H as H.
  exists (clean_name (replace_char 32 [underscore] (doc_type r))), np, (ext_part o).
  split; [reflexivity|].
  split; [intro L; unfold namepart_of in Enp;
          replace (50 <? blen (clean_name (asset r))) with false in Enp
            by (symmetry; apply Z.ltb_ge; exact L);
          injection Enp as <-; reflexivity|].
  split; [intro L; unfold namepart_of in Enp;
          replace (50 <? blen (clean_name (asset r))) with true in Enp
            by (symmetry; apply Z.ltb_lt; exact L);
          destruct (truncate 50 (clean_name (asset r))) as [t|]; [|discriminate];
          injection Enp as <-; exists t; split; reflexivity|].
  split; [reflexivity|].
  split; [apply clean_name_sanitized|].
  split; [exact (namepart_of_sanitized _ _ Enp)|].
  split; [apply ext_part_ok|].
  split; [intro E; unfold ext_part; rewrite E; reflexivity|].
  split; [intros x E1 E2; unfold ext_part; rewrite E1, E2; reflexivity|].
  split; [intros x E1 E2; unfold ext_part; rewrite E1, E2; reflexivity|].
  destruct (isin_part (isin r)) as [i|] eqn:Ei.
  - right. unfold isin_part in Ei.
    destruct (isin r) as [i0|]; [|discriminate].
    destruct ((blen i0 =? 12) && forallb is_ascii_alphanumeric i0) eqn:Ev; [|discriminate].
    injection Ei as Ei; subst i0.
    apply andb_prop in Ev as [Ev1 Ev2]. apply Z.eqb_eq in Ev1.
    exists i. split; [reflexivity|]. split; [rewrite (blen_ascii _ Ev2) in Ev1; lia|].
    split; [exact Ev2|].
    destruct (str_eqb np i) eqn:Eq.
    + right. split; [|symmetry; exact H].
      clear -Eq. revert i Eq; induction np as [|c t IH]; intros [|d u] Eq; simpl in Eq;
        try discriminate; [reflexivity|].
      apply andb_prop in Eq as [E1 E2]. apply Z.eqb_eq in E1. subst d. f_equal. apply IH; exact E2.
    + left. split; [|symmetry; exact H].
      intro Hn; subst np. clear -Eq. induction i as [|c t IH]; simpl in Eq; [discriminate|].
      rewrite Z.eqb_refl in Eq; exact (IH Eq).
  - left. split; [reflexivity|symmetry; exact H].
Qed.

(** Claim C1, as stated, fails: the category [Kapitalmaßnahme] of the
    keyword table keeps its [ß], and an asset name keeps its [-], so the
    category and label parts are not restricted to [[A-Za-z0-9_]]. *)
Lemma build_filename_non_ascii_parts :
  let cat := lit "Kapitalma" ++ [223] ++ lit "nahme" in
  build_filename (mkPdfData (mkDate 2025 3 10) cat None (lit "Depot-Info")) (lit "scan.pdf")
  = Some (lit "2025_03_10_" ++ cat ++ lit "_Depot-Info.pdf") /\
  existsb (fun c => negb (is_ascii_alphanumeric c || is_underscore c)) cat = true /\
  existsb (fun c => negb (is_ascii_alphanumeric c || is_underscore c)) (lit "Depot-Info") = true.
Proof. vm_compute. repeat split. Qed.

(** Claim C2. [build_filename] panics on an asset name whose 50th byte
    falls inside a character: 49 ASCII letters followed by [ä] (two bytes)
    make [String::truncate(50)] hit a non-boundary.  [parse_pdf_data]
    produces such a record from the [POSITION] fallback of a short text. *)
Theorem build_filename_truncate_panics :
  build_filename (mkPdfData (mkDate 2025 8 1) (lit "Kauf") None (repeat 97 49 ++ [228]))
                 (lit "x.pdf") = None /\
  match parse_pdf_data 2026 (text_of ["DATUM 01.08.2025"; "POSITION"] ++ repeat 97 49 ++ [228; 10])
  with
  | Some r => asset r = repeat 97 49 ++ [228] /\ build_filename r (lit "x.pdf") = None
  | None => False
  end.
Proof. vm_compute. split; [reflexivity | split; reflexivity]. Qed.

(** ** Captures of the matcher *)

Definition caps_grow (s s0 : mstate) : Prop := exists l, m_caps s0 = l ++ m_caps s.

Lemma caps_grow_refl : forall s, caps_grow s s.
Proof. intros s; exists []; reflexivity. Qed.

Lemma caps_grow_trans : forall a b c, caps_grow a b -> caps_grow b c -> caps_grow a c.
Proof. intros a b c [l1 H1] [l2 H2]; exists (l2 ++ l1); rewrite H2, H1, app_assoc; reflexivity. Qed.

Lemma mt_caps_grow : forall r s k s',
  mt r s k = Some s' -> exists s0, k s0 = Some s' /\ caps_grow s s0.
Proof.
  induction r as [| p | a IHa b IHb | a IHa b IHb | lo hi g a IHa | n a IHa | |];
    intros s k s' H; simpl in H.
  - exists s; split; [exact H | apply caps_grow_refl].
  - destruct (m_rest s) as [|c t]; [discriminate|].
    destruct (p c); [|discriminate].
    exists (advance s c t); split; [exact H | exists []; reflexivity].
  - destruct (IHa _ _ _ H) as [s1 [H1 G1]].
    destruct (IHb _ _ _ H1) as [s0 [H0 G0]].
    exists s0; split; [exact H0 | exact (caps_grow_trans _ _ _ G1 G0)].
  - destruct (mt a s k) eqn:E.
    + injection H as <-. exact (IHa _ _ _ E).
    + exact (IHb _ _ _ H).
  - revert H.
    match goal with
    | |- ?F _ _ _ = Some _ -> _ =>
        assert (Hl : forall fuel i s1, caps_grow s s1 -> F fuel i s1 = Some s' ->
                     exists s0, k s0 = Some s' /\ caps_grow s s0)
    end.
    2: { intro H; exact (Hl _ _ _ (caps_grow_refl s) H). }
    intros fuel; induction fuel as [|f IH]; intros i s1 G H; [discriminate|].
    simpl in H.
    destruct (Nat.ltb i lo).
    + destruct (IHa _ _ _ H) as [s2 [H2 G2]].
      exact (IH _ s2 (caps_grow_trans _ _ _ G G2) H2).
    + destruct (match hi with Some h => Nat.leb h i | None => false end).
      * exists s1; split; [exact H | exact G].
      * destruct g.
        -- destruct (mt a s1 _) eqn:E.
           ++ injection H as <-. destruct (IHa _ _ _ E) as [s2 [H2 G2]].
              destruct (Nat.eqb (m_pos s2) (m_pos s1)); [discriminate|].
              exact (IH _ s2 (caps_grow_trans _ _ _ G G2) H2).
           ++ exists s1; split; [exact H | exact G].
        -- destruct (k s1) eqn:E.
           ++ injection H as <-. exists s1; split; [exact E | exact G].
           ++ destruct (IHa _ _ _ H) as [s2 [H2 G2]].
              destruct (Nat.eqb (m_pos s2) (m_pos s1)); [discriminate|].
              exact (IH _ s2 (caps_grow_trans _ _ _ G G2) H2).
  - destruct (IHa _ _ _ H) as [s1 [H1 [l G1]]].
    exists (set_cap n (m_pos s) s1); split; [exact H1|].
    exists ((n, (m_pos s, m_pos s1)) :: l). simpl. rewrite G1. reflexivity.
  - destruct (xorb _ _); [|discriminate].
    exists s; split; [exact H | apply caps_grow_refl].
  - destruct (m_rest s); [|discriminate].
    exists s; split; [exact H | apply caps_grow_refl].
Qed.

Lemma cap_lookup_app : forall n v l r, cap_lookup n (l ++ (n, v) :: r) <> None.
Proof.
  intros n v l r; induction l as [|[m w] t IH]; simpl.
  - rewrite Nat.eqb_refl; discriminate.
  - destruct (Nat.eqb m n); [discriminate | exact IH].
Qed.

Lemma mt_seq_group_cap : forall x n a b s s',
  mt (RSeq x (RSeq (RGroup n a) b)) s Some = Some s' -> cap_lookup n (m_caps s') <> None.
Proof.
  intros x n a b s s' H. cbn [mt] in H.
  destruct (mt_caps_grow _ _ _ _ H) as [s1 [H1 _]].
  destruct (mt_caps_grow _ _ _ _ H1) as [s2 [H2 _]].
  destruct (mt_caps_grow _ _ _ _ H2) as [s3 [H3 [l G]]].
  injection H3 as <-. rewrite G. simpl. apply cap_lookup_app.
Qed.

Lemma search_mt : forall r prev rest pos st s,
  search r prev rest pos = Some (st, s) ->
  exists prev' rest' pos', mt r (MS prev' rest' pos' []) Some = Some s.
Proof.
  intros r prev rest; revert prev; induction rest as [|c t IH]; intros prev pos st s H; simpl in H.
  - destruct (mt r _ Some) eqn:E; [|discriminate].
    injection H as _ <-. eauto.
  - destruct (mt r _ Some) eqn:E.
    + injection H as _ <-. eauto.
    + exact (IH _ _ _ _ H).
Qed.

Lemma all_matches_mt : forall f r prev rest pos st s,
  In (st, s) (all_matches f r prev rest pos) ->
  exists prev' rest' pos', mt r (MS prev' rest' pos' []) Some = Some s.
Proof.
  induction f as [|f IH]; intros r prev rest pos st s H; simpl in H; [contradiction|].
  destruct (search r prev rest pos) as [[st0 s0]|] eqn:E; [|contradiction].
  destruct H as [H|H].
  - injection H as <- <-. exact (search_mt _ _ _ _ _ _ E).
  - destruct (Nat.eqb (m_pos s0) st0).
    + destruct (m_rest s0) as [|c t]; [contradiction|]. exact (IH _ _ _ _ _ _ H).
    + exact (IH _ _ _ _ _ _ H).
Qed.

Lemma isin_regex_group : forall line m,
  In m (captures_iter ISIN_REGEX line) -> group line m 1 <> None.
Proof.
  intros line [st s] H.
  destruct (all_matches_mt _ _ _ _ _ _ _ H) as [p [r [q E]]].
  unfold ISIN_REGEX, rseq in E. cbn [fold_right] in E.
  apply mt_seq_group_cap in E. unfold group. simpl.
  destruct (cap_lookup 1 (m_caps s)) as [[a b]|]; [discriminate | contradiction].
Qed.

Lemma first_valid_some : forall line ms,
  (forall m, In m ms -> group line m 1 <> None) -> first_valid line ms <> None.
Proof.
  intros line ms; induction ms as [|m t IH]; intros H; simpl; [discriminate|].
  destruct (group line m 1) eqn:E.
  - destruct (isin_valid r); [discriminate|]. apply IH. intros m' Hm; apply H; right; exact Hm.
  - exfalso. exact (H m (or_introl eq_refl) E).
Qed.

Lemma scan_lines_some : forall lines i rest, scan_lines lines i rest <> None.
Proof.
  intros lines i rest; revert i; induction rest as [|line t IH]; intros i; simpl; [discriminate|].
  destruct (contains line (lit "Umsatzsteuer") || contains line (lit "VAT")); [apply IH|].
  destruct (first_valid line (captures_iter ISIN_REGEX line)) as [[c|]|] eqn:E.
  - discriminate.
  - apply IH.
  - exfalso. exact (first_valid_some line _ (isin_regex_group line) E).
Qed.

Lemma first_valid_valid : forall line ms c,
  first_valid line ms = Some (Some c) -> isin_valid c = true.
Proof.
  intros line ms; induction ms as [|m t IH]; intros c H; simpl in H; [discriminate|].
  destruct (group line m 1) as [g|]; [|discriminate].
  destruct (isin_valid g) eqn:E; [injection H as <-; exact E | exact (IH _ H)].
Qed.

Lemma scan_lines_valid : forall lines i rest c a,
  scan_lines lines i rest = Some (Some (c, a)) -> isin_valid c = true.
Proof.
  intros lines i rest; revert i; induction rest as [|line t IH]; intros i c a H; simpl in H;
    [discriminate|].
  destruct (contains line (lit "Umsatzsteuer") || contains line (lit "VAT")); [exact (IH _ _ _ H)|].
  destruct (first_valid line (captures_iter ISIN_REGEX line)) as [[c0|]|] eqn:E; [|exact (IH _ _ _ H)|discriminate].
  injection H as <- _. exact (first_valid_valid _ _ _ E).
Qed.

Ltac destruct_pairs :=
  repeat (cbv zeta beta iota in *;
          match goal with
          | |- context [match ?E with pair _ _ => _ end] =>
              lazymatch E with pair _ _ => fail | _ => destruct E as [? ?] eqn:? end
          | H : context [match ?E with pair _ _ => _ end] |- _ =>
              lazymatch E with pair _ _ => fail | _ => destruct E as [? ?] eqn:? end
          end).

(** Claim C4: every identifier in a returned record passes the full
    [ISIN::from_str] check (shape and ISO 6166 check digit), so a candidate
    of the right shape with a wrong check digit is never returned. *)
Theorem parse_pdf_data_isin_valid : forall current_year text r i,
  parse_pdf_data current_year text = Some r -> isin r = Some i -> isin_valid i = true.
Proof.
  intros cy t r i H Hi; unfold parse_pdf_data in H.
  destruct (1000000 <? blen t); [discriminate|].
  destruct (extract_date t) as [d|]; [|discriminate].
  destruct ((year d <? 2000) || (cy + 5 <? year d)); [discriminate|].
  destruct (scan_lines _ O _) as [found|] eqn:E5; [|discriminate].
  destruct_pairs. injection H as <-. simpl in Hi.
  match goal with E : (if str_eqb _ (lit "Kontoauszug") then _ else _) = _ |- _ =>
    destruct (str_eqb _ (lit "Kontoauszug")); injection E as <- _ end; [discriminate|].
  destruct found as [[c a]|]; [|discriminate].
  injection Hi as <-. exact (scan_lines_valid _ _ _ _ _ E5).
Qed.

Lemma str_eqb_refl : forall s, str_eqb s s = true.
Proof. induction s as [|c t IH]; simpl; [reflexivity|]. rewrite Z.eqb_refl; exact IH. Qed.

Lemma str_eqb_eq : forall a b, str_eqb a b = true -> a = b.
Proof.
  induction a as [|c t IH]; intros [|d u] H; simpl in H; try discriminate; [reflexivity|].
  apply andb_prop in H as [H1 H2]. apply Z.eqb_eq in H1. subst d. f_equal. exact (IH _ H2).
Qed.

Lemma mod97_step : forall a k b, ((a mod 97) * k + b) mod 97 = (a * k + b) mod 97.
Proof.
  intros a k b.
  rewrite (Zplus_mod (a mod 97 * k)), (Zplus_mod (a * k)), (Zmult_mod (a mod 97)), (Zmult_mod a),
    Zmod_mod.
  reflexivity.
Qed.

Lemma iban_remainder_spec : forall s r n, r = n mod 97 ->
  fold_left (fun r ch =>
               if is_ascii_digit ch then (r * 10 + (ch - 48)) mod 97
               else let value := ch - 65 + 10 in
                    let r := (r * 10 + value / 10) mod 97 in
                    (r * 10 + value mod 10) mod 97) s r
  = fold_left (fun n c => if is_ascii_digit c then n * 10 + (c - 48) else n * 100 + (c - 55)) s n
    mod 97.
Proof.
  induction s as [|c t IH]; intros r n H; simpl; [exact H|].
  apply IH. destruct (is_ascii_digit c); subst r.
  - apply mod97_step.
  - cbv zeta. rewrite mod97_step.
    replace (c - 65 + 10) with (c - 55) by lia.
    replace ((n mod 97 * 10 + (c - 55) / 10) * 10 + (c - 55) mod 10)
      with (n mod 97 * 100 + (10 * ((c - 55) / 10) + (c - 55) mod 10)) by ring.
    rewrite <- Z.div_mod by lia. apply mod97_step.
Qed.

Lemma is_valid_iban_spec : forall x, is_valid_iban x = true ->
  15 <= blen x <= 34 /\ forallb is_ascii_alphanumeric x = true /\ iban_mod97_spec x = true.
Proof.
  intros x H. unfold is_valid_iban in H.
  destruct ((15 <=? blen x) && (blen x <=? 34)) eqn:E1; [|discriminate].
  apply andb_prop in E1 as [E1 E2]; apply Z.leb_le in E1, E2. simpl in H.
  destruct (forallb is_ascii_alphanumeric x) eqn:E3; [|discriminate]. simpl in H.
  split; [lia|]. split; [reflexivity|].
  destruct x as [|a [|b [|c [|d t]]]]; try discriminate.
  destruct (negb (is_ascii_alphabetic a) || _ || _ || _); [discriminate|].
  unfold iban_mod97_spec, iban_number.
  rewrite <- (iban_remainder_spec _ 0 0 eq_refl). exact H.
Qed.

Lemma first_some_iban : forall (u : rstr) lens x,
  first_some (fun len => let candidate := firstn len u in
                         if is_valid_iban candidate then Some candidate else None) lens = Some x ->
  is_valid_iban x = true /\ exists q, u = x ++ q.
Proof.
  intros u lens; induction lens as [|n t IH]; intros x H; simpl in H; [discriminate|].
  destruct (is_valid_iban (firstn n u)) eqn:E; [|exact (IH _ H)].
  injection H as <-. split; [exact E|]. exists (skipn n u). symmetry; apply firstn_skipn.
Qed.

Lemma extract_iban_spec : forall t x, extract_iban t = Some x ->
  is_valid_iban x = true /\
  exists m raw, captures IBAN_RE t = Some m /\ group t m 1 = Some raw /\
    exists q, to_uppercase (filter (fun c => negb (is_whitespace c)) raw) = x ++ q.
Proof.
  intros t x H; unfold extract_iban in H.
  destruct (captures IBAN_RE t) as [m|] eqn:Em; [|discriminate].
  destruct (group t m 1) as [raw|] eqn:Er; [|discriminate].
  destruct (_ <? 15); [discriminate|]. destruct (negb _); [discriminate|].
  apply first_some_iban in H as [H1 [q Hq]]. split; [exact H1|].
  exists m, raw; split; [first [exact Em|reflexivity]|]; split; [first [exact Er|reflexivity]|]. exists q; exact Hq.
Qed.

Lemma alnum_not_ws : forall c, is_ascii_alphanumeric c = true -> is_whitespace c = false.
Proof.
  intros c H. unfold is_ascii_alphanumeric, is_ascii_alphabetic, is_ascii_upper, is_ascii_lower,
    is_ascii_digit in H. unfold is_whitespace.
  repeat (rewrite ?orb_true_iff, ?andb_true_iff, ?Z.leb_le in H).
  repeat (rewrite ?orb_false_iff, ?andb_false_iff, ?Z.leb_gt, ?Z.eqb_neq); lia.
Qed.

Lemma trim_alnum : forall x, forallb is_ascii_alphanumeric x = true -> trim x = x.
Proof.
  intros x H. unfold trim, trim_by, trim_start_by, trim_end_by.
  assert (Hh : forall l, forallb is_ascii_alphanumeric l = true -> drop_while is_whitespace l = l).
  { intros [|c l] Hl; [reflexivity|]. apply drop_while_id. simpl in Hl.
    apply andb_prop in Hl as [Hl _]. exact (alnum_not_ws _ Hl). }
  rewrite (Hh x H), Hh, rev_involutive; [reflexivity|].
  rewrite forallb_forall in *. intros c Hc; apply H, in_rev; exact Hc.
Qed.

(** Claim C8: a record of category [Kontoauszug] has no identifier, and
    its label is either the sentinel [Konto] (when [extract_iban] finds
    nothing) or the IBAN returned by [extract_iban]: a prefix of the
    upper-cased, whitespace-free group 1 of the first [IBAN_RE] match that
    passes [is_valid_iban], hence the mod-97 check as the specification
    words it. *)
Theorem kontoauszug_record : forall current_year text r,
  parse_pdf_data current_year text = Some r -> doc_type r = lit "Kontoauszug" ->
  isin r = None /\
  ((extract_iban text = None /\ asset r = lit "Konto") \/
   (extract_iban text = Some (asset r) /\ is_valid_iban (asset r) = true /\
    iban_mod97_spec (asset r) = true /\
    exists m raw, captures IBAN_RE text = Some m /\ group text m 1 = Some raw /\
      exists q, to_uppercase (filter (fun c => negb (is_whitespace c)) raw) = asset r ++ q)).
Proof.
  intros cy t r H Hd; unfold parse_pdf_data in H.
  destruct (1000000 <? blen t); [discriminate|].
  destruct (extract_date t) as [d|]; [|discriminate].
  destruct ((year d <? 2000) || (cy + 5 <? year d)); [discriminate|].
  destruct (scan_lines _ O _) as [found|] eqn:E5; [|discriminate].
  destruct_pairs. injection H as <-. cbn [doc_type] in Hd. subst.
  match goal with E : (if str_eqb _ (lit "Kontoauszug") then _ else _) = _ |- _ =>
    rewrite str_eqb_refl in E; injection E as <- <- end.
  cbn [isin asset]. split; [reflexivity|].
  replace (is_report_type (lit "Kontoauszug")) with false by reflexivity.
  destruct (extract_iban t) as [x|] eqn:Ei.
  - right. destruct (extract_iban_spec _ _ Ei) as [V R].
    destruct (is_valid_iban_spec _ V) as [B [A M]].
    assert (Hx : (is_empty (trim x) || (500 <? blen x)) = false).
    { rewrite trim_alnum by exact A. destruct x; [simpl in B; lia|].
      cbn [is_empty orb]. apply Z.ltb_ge. lia. }
    cbv beta iota. rewrite Hx. auto.
  - left. split; reflexivity.
Qed.

Lemma upper_digit_alnum : forall c, is_ascii_upper c || is_ascii_digit c = true ->
  is_ascii_alphanumeric c = true.
Proof.
  intros c H. unfold is_ascii_alphanumeric, is_ascii_alphabetic.
  apply orb_true_iff in H as [H|H]; rewrite H; [reflexivity | apply orb_true_r].
Qed.

Lemma isin_valid_alnum : forall i, isin_valid i = true ->
  length i = 12%nat /\ blen i = 12 /\ forallb is_ascii_alphanumeric i = true.
Proof.
  intros i H. unfold isin_valid in H.
  repeat (apply andb_prop in H as [H ?]).
  apply Nat.eqb_eq in H.
  do 12 (destruct i as [|? i]; [discriminate|]). destruct i; [|discriminate].
  cbn [firstn skipn forallb nth_error] in *.
  repeat match goal with
         | H : _ && _ = true |- _ => apply andb_prop in H as [? ?]
         end.
  assert (A : forallb is_ascii_alphanumeric [z; z0; z1; z2; z3; z4; z5; z6; z7; z8; z9; z10] = true).
  { apply forallb_forall; intros x Hx; apply upper_digit_alnum.
    repeat destruct Hx as [<-|Hx];
      first [ assumption | contradiction
            | apply orb_true_iff; first [left; assumption | right; assumption] ]. }
  split; [reflexivity|]. split; [rewrite (blen_ascii _ A); reflexivity | exact A].
Qed.

(** Claim C10: a record of category [Depotauszug] has the label [Depot],
    keeps the identifier of the line scan, and when that identifier is
    present the file name is [<date>_Depotauszug_<identifier>_Depot.<ext>]. *)
Theorem depotauszug_record : forall current_year text r,
  parse_pdf_data current_year text = Some r -> doc_type r = lit "Depotauszug" ->
  asset r = lit "Depot" /\
  (exists found, scan_lines (str_lines text) O (str_lines text) = Some found /\
                 isin r = option_map fst found) /\
  forall i orig_name, isin r = Some i ->
    build_filename r orig_name
    = Some (format_date (date r) ++ lit "_Depotauszug_" ++ i ++ lit "_Depot." ++ ext_part orig_name).
Proof.
  intros cy t r H Hd; unfold parse_pdf_data in H.
  destruct (1000000 <? blen t); [discriminate|].
  destruct (extract_date t) as [d|]; [|discriminate].
  destruct ((year d <? 2000) || (cy + 5 <? year d)); [discriminate|].
  destruct (scan_lines _ O _) as [found|] eqn:E5; [|discriminate].
  destruct_pairs. injection H as <-. cbn [doc_type] in Hd. subst.
  match goal with E : (if str_eqb _ (lit "Kontoauszug") then _ else _) = _ |- _ =>
    replace (str_eqb (lit "Depotauszug") (lit "Kontoauszug")) with false in E by reflexivity;
    injection E as <- <- end.
  replace (str_eqb (lit "Depotauszug") (lit "Steuerliche_Optimierung")) with false by reflexivity.
  replace (str_eqb (lit "Depotauszug") (lit "Depotauszug")) with true by reflexivity.
  replace (is_report_type (lit "Depotauszug")) with false by reflexivity.
  cbv beta iota.
  replace (is_empty (trim (lit "Depot")) || (500 <? blen (lit "Depot"))) with false
    by reflexivity.
  cbn [isin asset date].
  split; [reflexivity|]. split; [exists found; split; reflexivity|].
  intros i on Hi.
  assert (V : isin_valid i = true).
  { destruct found as [[c a]|]; [|discriminate]. injection Hi as <-.
    exact (scan_lines_valid _ _ _ _ _ E5). }
  destruct (isin_valid_alnum _ V) as [L [B A]].
  unfold build_filename; cbn [isin asset date doc_type]. rewrite Hi.
  replace (namepart_of (lit "Depot")) with (Some (lit "Depot")) by reflexivity.
  replace (clean_name (replace_char 32 [underscore] (lit "Depotauszug"))) with (lit "Depotauszug")
    by reflexivity.
  unfold isin_part. rewrite B, A. change ((12 =? 12) && true) with true. cbv beta iota.
  destruct (str_eqb (lit "Depot") i) eqn:Eq.
  - apply str_eqb_eq in Eq. subst i. discriminate.
  - reflexivity.
Qed.

(** ** Report year, label scan and date cascade *)

(** [for offset in (1..=3).rev()]: when the identifier fills its own line,
    the label is the nearest line above that passes [before_ok] counting
    from three lines up, i.e. the farthest of the (up to) three lines above
    that passes, else the identifier itself. *)
Ltac close_offsets :=
  let k := fresh "k" in
  let Hk := fresh "Hk" in
  intros k ? ?;
  assert (Hk : (k = 1 \/ k = 2 \/ k = 3)%nat) by lia;
  destruct Hk as [Hk|[Hk|Hk]]; subst k;
  first [assumption | exfalso; lia].

(** Claim C6, amended: when the identifier occupies its own trimmed line,
    the lines above are examined farthest-first (three above, then two, then
    one); the label is the first that passes [before_ok], or the identifier
    when none does. *)
Theorem find_asset_own_line : forall (lines : list rstr) i line candidate,
  str_eqb (trim line) candidate = true ->
  (exists o, (1 <= o <= 3)%nat /\ (o <= i)%nat /\
     before_ok (trim (nth (i - o) lines [])) = true /\
     (forall o', (o < o' <= 3)%nat -> (o' <= i)%nat ->
                 before_ok (trim (nth (i - o') lines [])) = false) /\
     find_asset lines i line candidate = trim (nth (i - o) lines []))
  \/ ((forall o, (1 <= o <= 3)%nat -> (o <= i)%nat ->
                 before_ok (trim (nth (i - o) lines [])) = false) /\
      find_asset lines i line candidate = candidate).
Proof.
  intros lines i line cand H. unfold find_asset. rewrite H. cbv beta iota zeta delta [negb].
  change (rev (seq 1 3)) with [3; 2; 1]%nat. cbn [try_before].
  destruct (Nat.leb 3 i) eqn:E3;
    [assert (3 <= i)%nat by (apply Nat.leb_le; exact E3)
    |assert (i < 3)%nat by (apply Nat.leb_gt; exact E3)];
  destruct (Nat.leb 2 i) eqn:E2;
    [assert (2 <= i)%nat by (apply Nat.leb_le; exact E2)
    |assert (i < 2)%nat by (apply Nat.leb_gt; exact E2)
    |assert (2 <= i)%nat by (apply Nat.leb_le; exact E2)
    |assert (i < 2)%nat by (apply Nat.leb_gt; exact E2)];
  destruct (Nat.leb 1 i) eqn:E1;
    try (assert (1 <= i)%nat by (apply Nat.leb_le; exact E1));
    try (assert (i < 1)%nat by (apply Nat.leb_gt; exact E1));
  try (exfalso; lia);
  destruct (before_ok (trim (nth (i - 3) lines []))) eqn:B3;
  destruct (before_ok (trim (nth (i - 2) lines []))) eqn:B2;
  destruct (before_ok (trim (nth (i - 1) lines []))) eqn:B1;
  cbv beta iota;
  first
    [ left; exists 3%nat; split; [lia|]; split; [lia|]; split; [assumption|];
      split; [close_offsets | reflexivity]
    | left; exists 2%nat; split; [lia|]; split; [lia|]; split; [assumption|];
      split; [close_offsets | reflexivity]
    | left; exists 1%nat; split; [lia|]; split; [lia|]; split; [assumption|];
      split; [close_offsets | reflexivity]
    | right; split; [close_offsets | reflexivity] ].
Qed.


(** Claim C6, as stated, fails: the identifier alone on line 3 with two
    passing lines above it takes the label from two lines up ([Alpha Fund]),
    not from the line immediately above ([Beta Fund]). *)
Lemma asset_scan_farthest_first :
  let text := text_of ["DATUM 01.08.2025"; "Alpha Fund"; "Beta Fund"; "IE00BZ163G84"] in
  option_map (fun r => (isin r, asset r)) (parse_pdf_data 2026 text)
  = Some (Some (lit "IE00BZ163G84"), lit "Alpha Fund") /\
  nth 2 (str_lines text) [] = lit "Beta Fund" /\
  before_ok (trim (lit "Beta Fund")) = true /\
  before_ok (trim (lit "Alpha Fund")) = true.
Proof. vm_compute. repeat split. Qed.

(** Claim C3 fails on the code: steps 1 and 2 of [extract_date] return the
    parse result of their first match ([return parse_...]) instead of
    skipping it when it does not parse, as steps 3 to 6 do.  The first
    textual range after [DATUM] is matched by step 1 but does not parse
    (the month names are unknown), so the cascade stops there, although
    step 4 finds [2025-08-01]; the text is short and that date's year in
    range, yet the result is [None]. *)
Lemma parse_pdf_data_step1_stops :
  let text := text_of ["DATUM 1 Foo 2025 - 2 Bar 2025"; "DATE 2025-08-01"] in
  parse_pdf_data 2026 text = None /\
  blen text <= 1000000 /\
  is_match TEXTUAL_RANGE_RE text = true /\
  first_some (numeric_of text) (captures_iter DATE_RE text) = Some (mkDate 2025 8 1).
Proof. vm_compute. repeat split; discriminate. Qed.

(** Claim C5: the report-year fold replaces a found [document year - 1]
    by a later found year: with [2024] and then the document date
    [15.03.2025] in the text, the label of the annual tax certificate is
    [2025], not [2024]. *)
Theorem report_year_later_year_wins :
  let text := text_of ["JAHRESSTEUERBESCHEINIGUNG"; "Steuerjahr 2024"; "DATUM 15.03.2025"] in
  option_map (fun r => (date r, doc_type r, asset r)) (parse_pdf_data 2026 text)
  = Some (mkDate 2025 3 15, lit "Jahressteuerbescheinigung", lit "2025") /\
  found_years text 2025 = [2024; 2025].
Proof. vm_compute. split; reflexivity. Qed.

(** Claim C7: [ANY_DATE_RE] matches one date, never a range, so step 5
    hands [parse_numeric_date] a single date and returns the start of the
    range [01.01.2025 - 31.03.2025]; [parse_numeric_date] itself would take
    the end of that range. *)
Theorem numeric_fallback_takes_range_start :
  let text := text_of ["Zeitraum 01.01.2025 - 31.03.2025"] in
  captures TEXTUAL_RANGE_RE text = None /\
  captures NUMERIC_RANGE_RE text = None /\
  first_some (fun m => textual_of text m 1 2 3) (captures_iter TEXTUAL_DATUM_RE text) = None /\
  first_some (numeric_of text) (captures_iter DATE_RE text) = None /\
  map (fun m => group text m 0) (captures_iter ANY_DATE_RE text)
  = [Some (lit "01.01.2025"); Some (lit "31.03.2025")] /\
  extract_date text = Some (mkDate 2025 1 1) /\
  parse_numeric_date (lit "01.01.2025 - 31.03.2025") = Some (mkDate 2025 3 31).
Proof. vm_compute. repeat split. Qed.

(** ** Instances of the theorems *)

Lemma build_filename_structure_witness :
  let r := mk_test 2025 7 2 "Kauf_Sparplan" (Some "IE00BK1PV551"%string) "MSCI World USD (Dist)" in
  let o := lit "orig.pdf" in
  let s := lit "2025_07_02_Kauf_Sparplan_IE00BK1PV551_MSCI_World_USD_Dist.pdf" in
  build_filename r o = Some s /\
  exists dt np e,
    dt = clean_name (replace_char 32 [underscore] (doc_type r)) /\
    (blen (clean_name (asset r)) <= 50 -> np = clean_name (asset r)) /\
    (50 < blen (clean_name (asset r)) ->
       exists t, truncate 50 (clean_name (asset r)) = Some t /\ np = trim_end_by is_underscore t) /\
    e = ext_part o /\
    sanitized dt = true /\ sanitized np = true /\ ext_ok e = true /\
    (path_extension o = None -> e = lit "pdf") /\
    (forall x, path_extension o = Some x -> ext_ok x = false -> e = lit "pdf") /\
    (forall x, path_extension o = Some x -> ext_ok x = true -> e = x) /\
    ((isin_part (isin r) = None /\
      s = format_date (date r) ++ [underscore] ++ dt ++ [underscore] ++ np ++ [46] ++ e)
     \/ exists i, isin r = Some i /\ length i = 12%nat /\
          forallb is_ascii_alphanumeric i = true /\
          ((np <> i /\ s = format_date (date r) ++ [underscore] ++ dt ++ [underscore] ++ i
                           ++ [underscore] ++ np ++ [46] ++ e)
           \/ (np = i /\ s = format_date (date r) ++ [underscore] ++ dt ++ [underscore] ++ i
                             ++ [46] ++ e))).
Proof.
  intros r o s.
  assert (H : build_filename r o = Some s) by (vm_compute; reflexivity).
  split; [exact H | exact (build_filename_structure r o s H)].
Defined.

Lemma find_asset_own_line_witness :
  let lines := str_lines (text_of ["DATUM 01.08.2025"; "Alpha Fund"; "Beta Fund"; "IE00BZ163G84"]) in
  str_eqb (trim (lit "IE00BZ163G84")) (lit "IE00BZ163G84") = true /\
  ((exists o, (1 <= o <= 3)%nat /\ (o <= 3)%nat /\
     before_ok (trim (nth (3 - o) lines [])) = true /\
     (forall o', (o < o' <= 3)%nat -> (o' <= 3)%nat ->
                 before_ok (trim (nth (3 - o') lines [])) = false) /\
     find_asset lines 3 (lit "IE00BZ163G84") (lit "IE00BZ163G84") = trim (nth (3 - o) lines []))
   \/ ((forall o, (1 <= o <= 3)%nat -> (o <= 3)%nat ->
                  before_ok (trim (nth (3 - o) lines [])) = false) /\
       find_asset lines 3 (lit "IE00BZ163G84") (lit "IE00BZ163G84") = lit "IE00BZ163G84")).
Proof.
  intro lines. split; [vm_compute; reflexivity|].
  apply (find_asset_own_line lines 3 (lit "IE00BZ163G84") (lit "IE00BZ163G84")).
  vm_compute; reflexivity.
Defined.

Lemma parse_pdf_data_isin_valid_witness :
  parse_pdf_data 2026 depot_text = Some depot_record /\
  isin depot_record = Some (lit "CNE1000007Z2") /\
  isin_valid (lit "CNE1000007Z2") = true.
Proof.
  split; [vm_compute; reflexivity|]. split; [reflexivity|].
  apply (parse_pdf_data_isin_valid 2026 depot_text depot_record); vm_compute; reflexivity.
Defined.

Lemma depotauszug_record_witness :
  parse_pdf_data 2026 depot_text = Some depot_record /\
  doc_type depot_record = lit "Depotauszug" /\
  asset depot_record = lit "Depot" /\
  (exists found, scan_lines (str_lines depot_text) O (str_lines depot_text) = Some found /\
                 isin depot_record = option_map fst found) /\
  forall i orig_name, isin depot_record = Some i ->
    build_filename depot_record orig_name
    = Some (format_date (date depot_record) ++ lit "_Depotauszug_" ++ i ++ lit "_Depot."
            ++ ext_part orig_name).
Proof.
  split; [vm_compute; reflexivity|]. split; [reflexivity|].
  apply (depotauszug_record 2026 depot_text depot_record); vm_compute; reflexivity.
Defined.

Lemma kontoauszug_record_witness :
  parse_pdf_data 2026 konto_text = Some konto_record /\
  doc_type konto_record = lit "Kontoauszug" /\
  isin konto_record = None /\
  ((extract_iban konto_text = None /\ asset konto_record = lit "Konto") \/
   (extract_iban konto_text = Some (asset konto_record) /\ is_valid_iban (asset konto_record) = true /\
    iban_mod97_spec (asset konto_record) = true /\
    exists m raw, captures IBAN_RE konto_text = Some m /\ group konto_text m 1 = Some raw /\
      exists q, to_uppercase (filter (fun c => negb (is_whitespace c)) raw) = asset konto_record ++ q)).
Proof.
  split; [vm_compute; reflexivity|]. split; [reflexivity|].
  apply (kontoauszug_record 2026 konto_text konto_record); vm_compute; reflexivity.
Defined.

(** ** Dates and records *)

Lemma from_ymd_opt_valid : forall y m d r, from_ymd_opt y m d = Some r -> valid_date r = true.
Proof.
  intros y m d r H; unfold from_ymd_opt in H.
  destruct (_ && _) eqn:E; [|discriminate]. injection H as <-. exact E.
Qed.

Lemma parse_from_str_valid : forall s items r, parse_from_str s items = Some r -> valid_date r = true.
Proof.
  intros s items r H; unfold parse_from_str in H.
  destruct (parse_items items s _) as [[[[y|] [m|] [d|]] [|]]|]; try discriminate.
  exact (from_ymd_opt_valid _ _ _ _ H).
Qed.

Lemma parse_numeric_date_component_valid : forall s r,
  parse_numeric_date_component s = Some r -> valid_date r = true.
Proof.
  intros s r H; unfold parse_numeric_date_component in H.
  destruct (contains _ _); [exact (parse_from_str_valid _ _ _ H)|].
  destruct (_ && _ && _); [exact (parse_from_str_valid _ _ _ H) | discriminate].
Qed.

Lemma try_separators_valid : forall s seps r, try_separators s seps = Some r -> valid_date r = true.
Proof.
  intros s seps; induction seps as [|sep t IH]; intros r H; simpl in H; [discriminate|].
  destruct (find_at s sep O); [|exact (IH _ H)].
  destruct (parse_numeric_date_component _) eqn:E.
  - injection H as <-. exact (parse_numeric_date_component_valid _ _ E).
  - exact (IH _ H).
Qed.

Lemma parse_numeric_date_valid : forall s r, parse_numeric_date s = Some r -> valid_date r = true.
Proof.
  intros s r H; unfold parse_numeric_date in H.
  destruct (parse_numeric_date_component s) eqn:E.
  - injection H as <-. exact (parse_numeric_date_component_valid _ _ E).
  - exact (try_separators_valid _ _ _ H).
Qed.

Lemma parse_textual_valid : forall a b c r,
  parse_textual_date_components a b c = Some r -> valid_date r = true.
Proof.
  intros a b c r H; unfold parse_textual_date_components in H.
  destruct (parse_u32 _); [|discriminate]. destruct (parse_i32 _); [|discriminate].
  destruct (month_name_to_number b); [|discriminate]. exact (from_ymd_opt_valid _ _ _ _ H).
Qed.

Lemma first_some_prop : forall {A B} (P : B -> Prop) (f : A -> option B) l r,
  (forall x r, f x = Some r -> P r) -> first_some f l = Some r -> P r.
Proof.
  intros A B P f l; induction l as [|x t IH]; intros r Hf H; simpl in H; [discriminate|].
  destruct (f x) eqn:E; [injection H as <-; exact (Hf _ _ E) | exact (IH _ Hf H)].
Qed.

Lemma textual_of_valid : forall t m a b c r, textual_of t m a b c = Some r -> valid_date r = true.
Proof.
  intros t m a b c r H; unfold textual_of in H.
  destruct (group t m a); [|discriminate]. destruct (group t m b); [|discriminate].
  destruct (group t m c); [|discriminate]. exact (parse_textual_valid _ _ _ _ H).
Qed.

Lemma numeric_of_valid : forall t m r, numeric_of t m = Some r -> valid_date r = true.
Proof.
  intros t m r H; unfold numeric_of in H.
  destruct (group t m 1); [exact (parse_numeric_date_valid _ _ H) | discriminate].
Qed.

Lemma extract_date_valid_aux : forall text d, extract_date text = Some d -> valid_date d = true.
Proof.
  intros t d H; unfold extract_date in H.
  destruct (captures TEXTUAL_RANGE_RE t) as [m|]; [exact (textual_of_valid _ _ _ _ _ _ H)|].
  destruct (captures NUMERIC_RANGE_RE t) as [m|].
  { destruct (group t m 2); [exact (parse_numeric_date_component_valid _ _ H) | discriminate]. }
  destruct (first_some _ (captures_iter TEXTUAL_DATUM_RE t)) eqn:E1.
  { injection H as <-. apply (first_some_prop (fun r => valid_date r = true) _ _ _ (fun m r => textual_of_valid t m 1 2 3 r) E1). }
  destruct (first_some (numeric_of t) (captures_iter DATE_RE t)) eqn:E2.
  { injection H as <-. apply (first_some_prop (fun r => valid_date r = true) _ _ _ (numeric_of_valid t) E2). }
  destruct (first_some (numeric_of t) (captures_iter ANY_DATE_RE t)) eqn:E3.
  { injection H as <-. apply (first_some_prop (fun r => valid_date r = true) _ _ _ (numeric_of_valid t) E3). }
  apply (first_some_prop (fun r => valid_date r = true) _ _ _ (fun m r => textual_of_valid t m 1 2 3 r) H).
Qed.

Lemma parse_pdf_data_record_ok_aux : forall current_year text r,
  parse_pdf_data current_year text = Some r ->
  extract_date text = Some (date r) /\ valid_date (date r) = true /\
  2000 <= year (date r) <= current_year + 5 /\
  is_empty (trim (asset r)) = false /\ blen (asset r) <= 500.
Proof.
  intros cy t r H; unfold parse_pdf_data in H.
  destruct (1000000 <? blen t); [discriminate|].
  destruct (extract_date t) as [d|] eqn:Ed; [|discriminate].
  destruct ((year d <? 2000) || (cy + 5 <? year d)) eqn:Ey; [discriminate|].
  apply orb_false_iff in Ey as [Ey1 Ey2]; apply Z.ltb_ge in Ey1, Ey2.
  destruct (scan_lines _ O _) as [found|]; [|discriminate].
  destruct_pairs. injection H as <-. cbn [date asset].
  split; [reflexivity|]. split; [exact (extract_date_valid_aux _ _ Ed)|]. split; [lia|].
  match goal with |- context [if ?c then lit "Guthaben" else ?a] =>
    destruct c eqn:Ec end.
  - split; [reflexivity | vm_compute; discriminate].
  - apply orb_false_iff in Ec as [Ec1 Ec2]. apply Z.ltb_ge in Ec2. split; [exact Ec1 | exact Ec2].
Qed.

(** ** The document type *)

Lemma detect_type_in : forall t, In (detect_type t) (map snd types) \/ detect_type t = lit "Unbekannt".
Proof.
  intros t; unfold detect_type.
  destruct (find _ types) as [[k v]|] eqn:E; [left | right; reflexivity].
  apply find_some in E as [E _]. apply (in_map snd _ _ E).
Qed.

Lemma parse_pdf_data_doc_type_in_aux : forall current_year text r,
  parse_pdf_data current_year text = Some r -> In (doc_type r) categories.
Proof.
  intros cy t r H; unfold parse_pdf_data in H.
  destruct (1000000 <? blen t); [discriminate|].
  destruct (extract_date t) as [d|]; [|discriminate].
  destruct ((year d <? 2000) || (cy + 5 <? year d)); [discriminate|].
  destruct (scan_lines _ O _) as [found|]; [|discriminate].
  destruct_pairs. injection H as <-. cbn [doc_type].
  match goal with E : (if is_none _ && _ && _ then _ else _) = (?dt, _) |- In ?dt _ =>
    destruct (_ && _ && _); injection E as <- _ end.
  - unfold categories. apply in_or_app; right.
    destruct b, b0; simpl; tauto.
  - unfold categories, sell_corrected. apply in_or_app.
    destruct (str_eqb _ _ && _); [right; simpl; tauto|].
    destruct (detect_type_in t) as [E|E]; [left; exact E | right; rewrite E; simpl; tauto].
Qed.

(** ** The report year *)

(** X4. For a document year of at least 2000, the year that report documents use as their asset lies between 2000 and the document year. *)
Theorem referenced_year_range : forall text dy,
  2000 <= dy -> 2000 <= referenced_year text dy <= dy.
Proof.
  intros t dy Hd; unfold referenced_year.
  assert (F : forall y, In y (found_years t dy) -> 2000 <= y <= dy).
  { intros y Hy; unfold found_years in Hy. apply filter_In in Hy as [_ Hy].
    apply andb_prop in Hy as [A B]; apply Z.leb_le in A, B; lia. }
  assert (G : forall l acc, (forall y, In y l -> 2000 <= y <= dy) ->
              (forall v, acc = Some v -> 2000 <= v <= dy) ->
              forall v, fold_left (year_step dy) l acc = Some v -> 2000 <= v <= dy).
  { induction l as [|y l IH]; intros acc Hl Ha v Hv; simpl in Hv; [exact (Ha _ Hv)|].
    apply (IH (year_step dy acc y)); [intros z Hz; apply Hl; right; exact Hz | | exact Hv].
    intros w Hw. unfold year_step in Hw.
    assert (Hy := Hl y (or_introl eq_refl)).
    destruct (y =? dy - 1); [injection Hw as <-; exact Hy|].
    destruct acc as [e|]; injection Hw as <-; [|exact Hy].
    assert (He := Ha e eq_refl). lia. }
  destruct (fold_left (year_step dy) (found_years t dy) None) as [v|] eqn:E.
  - apply (G _ _ F) in E; [exact E|]. intros ? Hn; discriminate.
  - destruct (Z.leb_spec 2000 (dy - 1)); lia.
Qed.

Lemma referenced_year_range_witness :
  2000 <= 2025 /\ 2000 <= referenced_year (lit "Steuerreport 2019 2031 2023") 2025 <= 2025.
Proof.
  split; [lia | apply (referenced_year_range (lit "Steuerreport 2019 2031 2023") 2025); lia].
Defined.

(** ** IBANs *)

(** X5. [is_valid_iban] accepts exactly the strings of 15 to 34 bytes, all ASCII letters and digits, that start with two letters and two digits and whose rearranged numeric form (each letter replaced by its character code minus 55: [A] to [Z] give 10 to 35, [a] to [z] give 42 to 67) is 1 modulo 97. *)
Theorem is_valid_iban_iff : forall iban,
  is_valid_iban iban = true <->
  (15 <= blen iban <= 34 /\ forallb is_ascii_alphanumeric iban = true /\
   (exists a b c d rest, iban = a :: b :: c :: d :: rest /\
      is_ascii_alphabetic a = true /\ is_ascii_alphabetic b = true /\
      is_ascii_digit c = true /\ is_ascii_digit d = true) /\
   iban_mod97_spec iban = true).
Proof.
  intros x; split.
  - intros H. destruct (is_valid_iban_spec _ H) as [B [A M]].
    split; [exact B|]. split; [exact A|]. split; [|exact M].
    unfold is_valid_iban in H.
    destruct (_ && _); [|discriminate]. simpl in H. destruct (forallb _ _); [|discriminate].
    simpl in H. destruct x as [|a [|b [|c [|d t]]]]; try discriminate.
    exists a, b, c, d, t. split; [reflexivity|].
    destruct (is_ascii_alphabetic a), (is_ascii_alphabetic b), (is_ascii_digit c),
      (is_ascii_digit d); try discriminate; repeat split.
  - intros [B [A [[a [b [c [d [t [-> [Ha [Hb [Hc Hd]]]]]]]]] M]]].
    unfold is_valid_iban.
    replace ((15 <=? blen (a :: b :: c :: d :: t)) && (blen (a :: b :: c :: d :: t) <=? 34))
      with true by (symmetry; apply andb_true_iff; split; apply Z.leb_le; lia).
    rewrite A. cbn [negb]. rewrite Ha, Hb, Hc, Hd. cbn [negb orb].
    unfold iban_mod97_spec, iban_number in M.
    rewrite (iban_remainder_spec _ 0 0 eq_refl). exact M.
Qed.

Lemma to_uppercase_alnum : forall s, forallb is_ascii_alphanumeric s = true ->
  forallb is_ascii_alphanumeric (to_uppercase s) = true /\ length (to_uppercase s) = length s.
Proof.
  induction s as [|c t IH]; intro H; [split; reflexivity|].
  simpl in H; apply andb_prop in H as [Hc Ht]. destruct (IH Ht) as [A L].
  unfold to_uppercase in *; cbn [map concat]. rewrite forallb_app, length_app, A, L.
  unfold upper_char.
  unfold is_ascii_alphanumeric, is_ascii_alphabetic, is_ascii_upper, is_ascii_lower,
    is_ascii_digit in Hc |- *.
  destruct ((97 <=? c) && (c <=? 122)) eqn:E1; cbn [orb].
  - apply andb_prop in E1 as [E1 E2]; apply Z.leb_le in E1, E2.
    cbn [forallb length].
    replace ((65 <=? c - 32) && (c - 32 <=? 90)) with true
      by (symmetry; apply andb_true_iff; split; apply Z.leb_le; lia).
    split; reflexivity.
  - rewrite orb_false_r in Hc.
    assert (Hr : 48 <= c <= 90).
    { repeat (rewrite ?orb_true_iff, ?andb_true_iff, ?Z.leb_le in Hc). lia. }
    replace ((224 <=? c) && (c <=? 254) && negb (c =? 247)) with false
      by (symmetry; destruct (Z.leb_spec 224 c); [lia|reflexivity]).
    replace (c =? 223) with false by (symmetry; apply Z.eqb_neq; lia).
    replace (c =? 255) with false by (symmetry; apply Z.eqb_neq; lia).
    replace (c =? 181) with false by (symmetry; apply Z.eqb_neq; lia).
    cbn [forallb length]. split; [|reflexivity]. rewrite andb_true_r.
    rewrite andb_false_iff, Z.leb_gt, Z.leb_gt in E1.
    repeat (rewrite ?orb_true_iff, ?andb_true_iff, ?Z.leb_le in Hc).
    repeat (rewrite ?orb_true_iff, ?andb_true_iff, ?Z.leb_le). lia.
Qed.

Lemma first_some_desc : forall (F : nat -> option rstr) K x,
  first_some F (rev (map (fun k => (15 + k)%nat) (seq 0 K))) = Some x ->
  exists n, F n = Some x /\ (15 <= n < 15 + K)%nat /\
            forall k, (n < k < 15 + K)%nat -> F k = None.
Proof.
  intros F K; induction K as [|K IH]; intros x H; [discriminate|].
  rewrite seq_S, map_app, rev_app_distr, Nat.add_0_l in H. cbn [map rev app first_some] in H.
  destruct (F (15 + K)%nat) eqn:E.
  - injection H as <-. exists (15 + K)%nat. split; [exact E|]. split; [lia|]. intros k Hk; lia.
  - destruct (IH x H) as [n [Fn [Hn Hk]]]. exists n. split; [exact Fn|]. split; [lia|].
    intros k Hk'. destruct (Nat.eq_dec k (15 + K)) as [->|Ne]; [exact E|]. apply Hk; lia.
Qed.

(** X6. When [extract_iban] returns an IBAN, it is valid, it is a prefix of the captured text without whitespace and upper-cased, and no longer prefix of at most 34 characters is valid. *)
Theorem extract_iban_longest : forall text x, extract_iban text = Some x ->
  exists m raw, captures IBAN_RE text = Some m /\ group text m 1 = Some raw /\
  let u := to_uppercase (filter (fun c => negb (is_whitespace c)) raw) in
  is_valid_iban x = true /\ (exists q, u = x ++ q) /\
  forall n, (length x < n)%nat -> (n <= length u)%nat -> (n <= 34)%nat ->
            is_valid_iban (firstn n u) = false.
Proof.
  intros t x H; unfold extract_iban in H.
  destruct (captures IBAN_RE t) as [m|] eqn:Em; [|discriminate].
  destruct (group t m 1) as [raw|] eqn:Er; [|discriminate].
  exists m, raw. split; [first [exact Em|reflexivity]|]. split; [first [exact Er|reflexivity]|].
  set (cl := filter (fun c => negb (is_whitespace c)) raw) in *.
  destruct (blen cl <? 15) eqn:El; [discriminate|]. apply Z.ltb_ge in El.
  destruct (forallb is_ascii_alphanumeric cl) eqn:Ea; [|discriminate]. cbn [negb] in H.
  destruct (to_uppercase_alnum _ Ea) as [Ua Ul].
  set (u := to_uppercase cl) in *. cbv zeta.
  assert (Bu : blen u = Z.of_nat (length u)) by exact (blen_ascii _ Ua).
  assert (Bc : blen cl = Z.of_nat (length cl)) by exact (blen_ascii _ Ea).
  apply first_some_desc in H as [n [Fn [Hn Hk]]].
  destruct (is_valid_iban (firstn n u)) eqn:V; [|discriminate]. injection Fn as <-.
  assert (HK : Z.of_nat (15 + Z.to_nat (Z.min (blen u) 34 - 14)) = Z.min (Z.of_nat (length u)) 34 + 1)
    by (rewrite Bu; lia).
  assert (Ln : length (firstn n u) = n) by (rewrite length_firstn; lia).
  split; [exact V|]. split; [exists (skipn n u); symmetry; apply firstn_skipn|].
  intros k H1 H2 H3. rewrite Ln in H1.
  specialize (Hk k ltac:(lia)).
  destruct (is_valid_iban (firstn k u)); [discriminate|reflexivity].
Qed.

Lemma extract_iban_longest_witness :
  extract_iban konto_text = Some (lit "DE89370400440532013000") /\
  exists m raw, captures IBAN_RE konto_text = Some m /\ group konto_text m 1 = Some raw /\
  let u := to_uppercase (filter (fun c => negb (is_whitespace c)) raw) in
  is_valid_iban (lit "DE89370400440532013000") = true /\ (exists q, u = lit "DE89370400440532013000" ++ q) /\
  forall n, (length (lit "DE89370400440532013000") < n)%nat -> (n <= length u)%nat -> (n <= 34)%nat ->
            is_valid_iban (firstn n u) = false.
Proof.
  assert (H : extract_iban konto_text = Some (lit "DE89370400440532013000")) by (vm_compute; reflexivity).
  split; [exact H | exact (extract_iban_longest _ _ H)].
Defined.

(** ** Safe file names *)

Lemma stem_char_range : forall c,
  (43 <= c <= 45 \/ 48 <= c <= 57 \/ 65 <= c <= 90 \/ c = 95 \/ 97 <= c <= 122) ->
  stem_char c = true.
Proof.
  intros c H. unfold stem_char, is_control, is_dangerous; cbn [existsb].
  apply andb_true_iff; split; apply negb_true_iff;
    repeat rewrite ?orb_false_iff, ?andb_false_iff, ?Z.leb_gt, ?Z.eqb_neq; lia.
Qed.

Lemma char_ok_stem : forall c, char_ok c = true -> stem_char c = true.
Proof.
  intros c H. unfold char_ok, retain_ok in H. unfold stem_char.
  destruct (is_control c), (is_dangerous c); cbn [negb andb] in H |- *;
    rewrite ?andb_false_r in H; cbn [andb] in H; first [reflexivity | discriminate H].
Qed.

Lemma alnum_stem : forall c, is_ascii_alphanumeric c = true -> stem_char c = true.
Proof.
  intros c H. apply stem_char_range.
  unfold is_ascii_alphanumeric, is_ascii_alphabetic, is_ascii_upper, is_ascii_lower,
    is_ascii_digit in H.
  repeat (rewrite ?orb_true_iff, ?andb_true_iff, ?Z.leb_le in H). lia.
Qed.

Lemma digits_aux_digits : forall fuel n acc, 0 <= n -> forallb is_ascii_digit acc = true ->
  forallb is_ascii_digit (digits_aux fuel n acc) = true.
Proof.
  induction fuel as [|f IH]; intros n acc Hn Ha; cbn [digits_aux]; [exact Ha|].
  destruct (Z.ltb_spec n 10).
  - cbn [forallb]. rewrite Ha, andb_true_r. unfold is_ascii_digit.
    apply andb_true_iff; split; apply Z.leb_le; lia.
  - apply IH; [apply Z.div_pos; lia|]. cbn [forallb]. rewrite Ha, andb_true_r.
    pose proof (Z.mod_pos_bound n 10 ltac:(lia)). unfold is_ascii_digit.
    apply andb_true_iff; split; apply Z.leb_le; lia.
Qed.

Lemma pad_digits : forall w n, 0 <= n -> forallb is_ascii_digit (pad_zero w (digits n)) = true.
Proof.
  intros w n Hn. unfold pad_zero. rewrite forallb_app.
  apply andb_true_iff; split; [|apply digits_aux_digits; [exact Hn|reflexivity]].
  induction (w - _)%nat; [reflexivity|]. exact IHn0.
Qed.

Lemma digits_stem : forall s, forallb is_ascii_digit s = true -> forallb stem_char s = true.
Proof.
  induction s as [|c t IH]; intro H; [reflexivity|]. simpl in H |- *.
  apply andb_prop in H as [H1 H2]. rewrite IH by exact H2.
  unfold is_ascii_digit in H1. apply andb_prop in H1 as [A B]; apply Z.leb_le in A, B.
  rewrite stem_char_range by lia. reflexivity.
Qed.

Lemma format_date_stem : forall d, 0 <= month d -> 0 <= day d ->
  forallb stem_char (format_date d) = true.
Proof.
  intros d Hm Hd. unfold format_date.
  rewrite !forallb_app.
  rewrite (digits_stem (pad_zero 2 (digits (month d)))) by (apply pad_digits; lia).
  rewrite (digits_stem (pad_zero 2 (digits (day d)))) by (apply pad_digits; lia).
  replace (forallb stem_char [underscore]) with true by reflexivity.
  rewrite !andb_true_r.
  destruct ((0 <=? year d) && (year d <=? 9999)) eqn:E.
  - apply digits_stem, pad_digits. apply andb_prop in E as [E _]; apply Z.leb_le in E; exact E.
  - cbn [forallb]. rewrite digits_stem by (apply pad_digits; lia). rewrite andb_true_r.
    destruct (year d <? 0); apply stem_char_range; lia.
Qed.

Lemma forallb_mono : forall (p q : Z -> bool) s, (forall c, p c = true -> q c = true) ->
  forallb p s = true -> forallb q s = true.
Proof.
  intros p q s H; induction s as [|c t IH]; simpl; [reflexivity|].
  intro Hs; apply andb_prop in Hs as [A B]. rewrite (H _ A), (IH B); reflexivity.
Qed.

Lemma sanitized_stem : forall s, sanitized s = true -> forallb stem_char s = true.
Proof.
  intros s H. apply sanitized_spec in H as [H _]. exact (forallb_mono _ _ _ char_ok_stem H).
Qed.

Lemma build_filename_safe_aux : forall r orig s,
  valid_date (date r) = true -> build_filename r orig = Some s ->
  exists stem, s = stem ++ [46] ++ ext_part orig /\ stem <> [] /\
               forallb stem_char stem = true /\ ext_ok (ext_part orig) = true.
Proof.
  intros r o s V H.
  assert (Hm : 0 <= month (date r)) by
    (unfold valid_date in V; repeat (apply andb_prop in V as [V ?]); apply Z.leb_le in H2; lia).
  assert (Hd : 0 <= day (date r)) by
    (unfold valid_date in V; repeat (apply andb_prop in V as [V ?]); apply Z.leb_le in H1; lia).
  pose proof (format_date_stem _ Hm Hd) as F.
  pose proof (sanitized_stem _ (clean_name_sanitized (replace_char 32 [underscore] (doc_type r)))) as T.
  unfold build_filename in H.
  destruct (namepart_of (asset r)) as [np|] eqn:En; [|discriminate].
  pose proof (sanitized_stem _ (namepart_of_sanitized _ _ En)) as N.
  injection H as <-.
  assert (U : forallb stem_char [underscore] = true) by reflexivity.
  destruct (isin_part (isin r)) as [i|] eqn:Ei.
  - assert (I : forallb stem_char i = true).
    { unfold isin_part in Ei. destruct (isin r); [|discriminate].
      destruct (_ && _) eqn:E; [|discriminate]. injection Ei as <-.
      apply andb_prop in E as [_ E]. exact (forallb_mono _ _ _ alnum_stem E). }
    destruct (str_eqb np i).
    + exists (format_date (date r) ++ [underscore] ++ clean_name (replace_char 32 [underscore] (doc_type r))
              ++ [underscore] ++ i).
      rewrite <- !app_assoc. split; [reflexivity|].
      split; [intro E; apply app_eq_nil in E as [_ E]; discriminate|]. split; [|apply ext_part_ok].
      rewrite !forallb_app, F, T, U, I. reflexivity.
    + exists (format_date (date r) ++ [underscore] ++ clean_name (replace_char 32 [underscore] (doc_type r))
              ++ [underscore] ++ i ++ [underscore] ++ np).
      rewrite <- !app_assoc. split; [reflexivity|].
      split; [intro E; apply app_eq_nil in E as [_ E]; discriminate|]. split; [|apply ext_part_ok].
      rewrite !forallb_app, F, T, U, I, N. reflexivity.
  - exists (format_date (date r) ++ [underscore] ++ clean_name (replace_char 32 [underscore] (doc_type r))
            ++ [underscore] ++ np).
    rewrite <- !app_assoc. split; [reflexivity|].
      split; [intro E; apply app_eq_nil in E as [_ E]; discriminate|]. split; [|apply ext_part_ok].
    rewrite !forallb_app, F, T, U, N. reflexivity.
Qed.

(** ** The extension kept by [build_filename] *)

Lemma split_on_app : forall sep p n, split_on sep (p ++ sep :: n) = split_on sep p ++ split_on sep n.
Proof.
  intros sep p n; induction p as [|c p IH]; cbn [app split_on].
  - rewrite Z.eqb_refl; reflexivity.
  - destruct (c =? sep); [rewrite IH; reflexivity|]. rewrite IH.
    destruct (split_on sep p) as [|h r] eqn:E.
    + destruct p; cbn [split_on] in E; [discriminate|]. destruct (z =? sep); [discriminate|].
      destruct (split_on sep p); discriminate.
    + reflexivity.
Qed.

Lemma split_on_none : forall sep n, forallb (fun c => negb (c =? sep)) n = true -> split_on sep n = [n].
Proof.
  intros sep n; induction n as [|c n IH]; intro H; [reflexivity|].
  cbn [forallb] in H; apply andb_prop in H as [H1 H2]. cbn [split_on].
  destruct (c =? sep); [discriminate|]. rewrite (IH H2); reflexivity.
Qed.

Lemma last_opt_app : forall {A} (l : list A) x, last_opt (l ++ [x]) = Some x.
Proof.
  intros A l x; induction l as [|a l IH]; [reflexivity|].
  cbn [app]. destruct (l ++ [x]) eqn:E; [destruct l; discriminate|]. exact IH.
Qed.

Lemma break_at_none : forall sep a b, forallb (fun c => negb (c =? sep)) a = true ->
  break_at sep (a ++ sep :: b) = Some (a, b).
Proof.
  intros sep a b; induction a as [|c a IH]; intro H; cbn [app break_at].
  - rewrite Z.eqb_refl; reflexivity.
  - cbn [forallb] in H; apply andb_prop in H as [H1 H2].
    destruct (c =? sep); [discriminate|]. rewrite (IH H2); reflexivity.
Qed.

Lemma forallb_rev : forall (p : Z -> bool) s, forallb p (rev s) = forallb p s.
Proof.
  intros p s; induction s as [|c s IH]; [reflexivity|].
  cbn [rev forallb]. rewrite forallb_app, IH. cbn [forallb]. rewrite andb_true_r, andb_comm. reflexivity.
Qed.

Lemma str_eqb_false : forall a b, a <> b -> str_eqb a b = false.
Proof.
  intros a b H. destruct (str_eqb a b) eqn:E; [|reflexivity]. apply str_eqb_eq in E. contradiction.
Qed.

Lemma file_name_last : forall dir n,
  (dir = [] \/ exists p, dir = p ++ [47]) ->
  forallb (fun c => negb (c =? 47)) n = true -> n <> [] -> n <> [46] -> n <> [46; 46] ->
  file_name (dir ++ n) = Some n.
Proof.
  intros dir n Hdir Nn H0 H1 H2. unfold file_name.
  assert (Hsp : exists l, split_on 47 (dir ++ n) = l ++ [n]).
  { destruct Hdir as [->|[p ->]].
    - exists []. cbn [app]. exact (split_on_none _ _ Nn).
    - exists (split_on 47 p). rewrite <- app_assoc. cbn [app].
      rewrite split_on_app, (split_on_none _ _ Nn). reflexivity. }
  destruct Hsp as [l ->]. rewrite filter_app. cbn [filter].
  rewrite (str_eqb_false _ _ H0), (str_eqb_false _ _ H1). cbn [negb andb].
  rewrite last_opt_app, (str_eqb_false _ _ H2). reflexivity.
Qed.

Lemma path_extension_of_name : forall dir b e,
  (dir = [] \/ exists p, dir = p ++ [47]) ->
  b <> [] -> ~ (b = [46] /\ e = []) ->
  forallb (fun c => negb (c =? 47)) (b ++ e) = true -> forallb (fun c => negb (c =? 46)) e = true ->
  file_name (dir ++ b ++ [46] ++ e) = Some (b ++ [46] ++ e) /\
  path_extension (dir ++ b ++ [46] ++ e) = Some e.
Proof.
  intros dir b e Hdir Hb Hdd Hs He.
  set (n := b ++ [46] ++ e).
  assert (Nn : forallb (fun c => negb (c =? 47)) n = true).
  { unfold n. rewrite forallb_app in Hs. rewrite !forallb_app. apply andb_prop in Hs as [A B].
    rewrite A, B. reflexivity. }
  assert (Hf : file_name (dir ++ n) = Some n).
  { apply file_name_last; [exact Hdir | exact Nn | | |]; unfold n.
    - destruct b; [contradiction|discriminate].
    - destruct b as [|c [|d b]]; [contradiction| |discriminate].
      cbn [app]. intro E; injection E as _ E; destruct e; discriminate.
    - intro E. destruct b as [|c [|d b]]; [contradiction| |].
      + cbn [app] in E. injection E as Ec E. destruct e; [|discriminate].
        apply Hdd; split; [rewrite Ec; reflexivity | reflexivity].
      + cbn [app] in E. injection E as _ _ E. destruct b; discriminate. }
  split; [exact Hf|].
  unfold path_extension. rewrite Hf.
  assert (Hl : split_last_dot n = Some (b, e)).
  { unfold split_last_dot, n. rewrite rev_app_distr, rev_app_distr, <- app_assoc.
    cbn [rev app]. rewrite break_at_none by (rewrite forallb_rev; exact He).
    rewrite !rev_involutive. reflexivity. }
  rewrite Hl. destruct b; [contradiction|reflexivity].
Qed.

(** X10. For a path ending in a file name [b.e] ([b] not empty, [e] without a dot, the name not [..]), the extension [build_filename] keeps is [e] when it is at most 10 ASCII letters and digits, and [pdf] otherwise. *)
Theorem ext_part_of_name : forall dir b e,
  (dir = [] \/ exists p, dir = p ++ [47]) ->
  b <> [] -> ~ (b = [46] /\ e = []) ->
  forallb (fun c => negb (c =? 47)) (b ++ e) = true -> forallb (fun c => negb (c =? 46)) e = true ->
  ext_part (dir ++ b ++ [46] ++ e) = if ext_ok e then e else lit "pdf".
Proof.
  intros dir b e Hdir Hb Hdd Hs He.
  unfold ext_part. rewrite (proj2 (path_extension_of_name dir b e Hdir Hb Hdd Hs He)).
  reflexivity.
Qed.

Lemma ext_part_of_name_witness :
  ext_part (lit "docs/" ++ lit "scan" ++ [46] ++ lit "PDF") = lit "PDF".
Proof.
  apply (ext_part_of_name (lit "docs/") (lit "scan") (lit "PDF")).
  - right. exists (lit "docs"). reflexivity.
  - discriminate.
  - intros [E _]. discriminate E.
  - reflexivity.
  - reflexivity.
Defined.

Lemma break_at_absent : forall sep a, forallb (fun c => negb (c =? sep)) a = true ->
  break_at sep a = None.
Proof.
  intros sep a; induction a as [|c a IH]; intro H; [reflexivity|].
  cbn [forallb] in H; apply andb_prop in H as [H1 H2]. cbn [break_at].
  destruct (c =? sep); [discriminate|]. rewrite (IH H2); reflexivity.
Qed.

(** X11. For a path whose file name has no dot, [build_filename] uses the extension [pdf]. *)
Theorem ext_part_no_dot : forall dir n,
  (dir = [] \/ exists p, dir = p ++ [47]) -> n <> [] ->
  forallb (fun c => negb (c =? 47) && negb (c =? 46)) n = true ->
  ext_part (dir ++ n) = lit "pdf".
Proof.
  intros dir n Hdir H0 Hn.
  assert (A : forallb (fun c => negb (c =? 47)) n = true /\ forallb (fun c => negb (c =? 46)) n = true).
  { split; refine (forallb_mono _ _ _ _ Hn); intros c Hc; apply andb_prop in Hc; tauto. }
  destruct A as [A B].
  assert (N1 : n <> [46]) by (intro E; subst n; discriminate).
  assert (N2 : n <> [46; 46]) by (intro E; subst n; discriminate).
  unfold ext_part, path_extension. rewrite (file_name_last _ _ Hdir A H0 N1 N2).
  unfold split_last_dot. rewrite break_at_absent by (rewrite forallb_rev; exact B). reflexivity.
Qed.

Lemma ext_part_no_dot_witness : ext_part (lit "docs/" ++ lit "scan") = lit "pdf".
Proof.
  apply (ext_part_no_dot (lit "docs/") (lit "scan")).
  - right. exists (lit "docs"). reflexivity.
  - discriminate.
  - reflexivity.
Defined.

(** ** Completeness of the matcher *)

Lemma mt_rrep : forall lo hi greedy a s k,
  mt (RRep lo hi greedy a) s k = rep_loop lo hi greedy a k (lo + S (length (m_rest s)))%nat O s.
Proof. reflexivity. Qed.

Scheme mrel_mut := Induction for mrel Sort Prop
with reprel_mut := Induction for reprel Sort Prop.

Lemma mrel_consumes : forall r s s1, mrel r s s1 ->
  exists w, m_rest s = w ++ m_rest s1 /\ m_pos s1 = (m_pos s + length w)%nat.
Proof.
  apply (mrel_mut
    (fun r s s1 _ => exists w, m_rest s = w ++ m_rest s1 /\ m_pos s1 = (m_pos s + length w)%nat)
    (fun lo hi a i s s1 _ => exists w, m_rest s = w ++ m_rest s1 /\ m_pos s1 = (m_pos s + length w)%nat));
    intros.
  - exists []; split; [reflexivity|simpl; lia].
  - exists [c]; rewrite e; split; [reflexivity|simpl; lia].
  - destruct H as [w1 [A1 B1]], H0 as [w2 [A2 B2]]. exists (w1 ++ w2).
    rewrite A1, A2, app_assoc, length_app. split; [reflexivity|lia].
  - exact H.
  - exact H.
  - destruct H as [w [A B]]. exists w. exact (conj A B).
  - exists []; split; [reflexivity|simpl; lia].
  - exists []; split; [reflexivity|simpl; lia].
  - exact H.
  - exists []; split; [reflexivity|simpl; lia].
  - destruct H as [w1 [A1 B1]], H0 as [w2 [A2 B2]]. exists (w1 ++ w2).
    rewrite A1, A2, app_assoc, length_app. split; [reflexivity|lia].
Qed.

Lemma mrel_len : forall r s s1, mrel r s s1 ->
  (length (m_rest s1) <= length (m_rest s))%nat /\
  (m_pos s1 <> m_pos s -> length (m_rest s1) < length (m_rest s))%nat.
Proof.
  intros r s s1 H. destruct (mrel_consumes _ _ _ H) as [w [A B]].
  rewrite A, length_app. split; [lia|]. intro N. destruct w; simpl in *; lia.
Qed.

Lemma reprel_len : forall lo hi a i s s1, reprel lo hi a i s s1 ->
  (length (m_rest s1) <= length (m_rest s))%nat.
Proof.
  intros lo hi a i s s1 H; induction H; [lia|].
  destruct (mrel_len _ _ _ H0); lia.
Qed.

Theorem mt_complete : forall r s s1, mrel r s s1 ->
  forall k x, k s1 = Some x -> exists y, mt r s k = Some y.
Proof.
  apply (mrel_mut
    (fun r s s1 _ => forall k x, k s1 = Some x -> exists y, mt r s k = Some y)
    (fun lo hi a i s s1 _ => forall g k x fuel, k s1 = Some x ->
        (lo - i + length (m_rest s) < fuel)%nat ->
        exists y, rep_loop lo hi g a k fuel i s = Some y)).
  - intros s k x H. exists x; exact H.
  - intros p s c t E P k x H. exists x. cbn [mt]. rewrite E, P. exact H.
  - intros a b s s1 s2 _ IHa _ IHb k x H. cbn [mt].
    destruct (IHb k x H) as [y Hy]. exact (IHa _ y Hy).
  - intros a b s s1 _ IH k x H. cbn [mt]. destruct (IH k x H) as [y Hy]. rewrite Hy. exists y; reflexivity.
  - intros a b s s1 _ IH k x H. cbn [mt].
    destruct (mt a s k); [eexists; reflexivity|]. exact (IH k x H).
  - intros n a s s1 _ IH k x H. cbn [mt]. exact (IH (fun s' => k (set_cap n (m_pos s) s')) x H).
  - intros s W k x H. cbn [mt]. rewrite W. exists x; exact H.
  - intros s E k x H. cbn [mt]. rewrite E. exists x; exact H.
  - intros lo hi g a s s1 _ IH k x H. rewrite mt_rrep. apply (IH g k x); [exact H|lia].
  - intros lo hi a i s L g k x fuel H F.
    destruct fuel as [|f]; [lia|]. cbn [rep_loop].
    destruct (Nat.ltb_spec i lo); [lia|].
    destruct (match hi with Some h => Nat.leb h i | None => false end); [exists x; exact H|].
    destruct g.
    + destruct (mt a s _); [eexists; reflexivity|]. exists x; exact H.
    + rewrite H. exists x; reflexivity.
  - intros lo hi a i s s1 s2 C Ha IHa Hr IHr g k x fuel H F.
    destruct (mrel_len _ _ _ Ha) as [L1 L2].
    destruct fuel as [|f]; [lia|]. cbn [rep_loop].
    destruct (Nat.ltb_spec i lo).
    + destruct (IHr g k x f H ltac:(lia)) as [y Hy].
      exact (IHa _ y Hy).
    + destruct C as [C|[_ [Ch Cp]]]; [lia|].
      replace (match hi with Some h => Nat.leb h i | None => false end) with false
        by (destruct hi as [h|]; [symmetry; apply Nat.leb_gt; exact Ch | reflexivity]).
      specialize (L2 Cp).
      destruct (IHr g k x f H ltac:(lia)) as [y Hy].
      assert (K : (fun s' => if Nat.eqb (m_pos s') (m_pos s) then None
                             else rep_loop lo hi g a k f (S i) s') s1 = Some y).
      { cbv beta. replace (Nat.eqb (m_pos s1) (m_pos s)) with false
          by (symmetry; apply Nat.eqb_neq; exact Cp). exact Hy. }
      destruct (IHa _ y K) as [z Hz].
      destruct g.
      * rewrite Hz. exists z; reflexivity.
      * destruct (k s); [eexists; reflexivity|]. rewrite Hz. exists z; reflexivity.
Qed.

(** ** Names in the naming scheme *)

Lemma class_reprel : forall lo hi p w rest i prev pos caps,
  forallb p w = true -> (lo <= i + length w)%nat ->
  (match hi with Some h => (i + length w <= h)%nat | None => True end) ->
  exists pv, reprel lo hi (RClass p) i (MS prev (w ++ rest) pos caps)
                                       (MS pv rest (pos + length w) caps).
Proof.
  intros lo hi p w; induction w as [|c w IH]; intros rest i prev pos caps Hw Hl Hh.
  - exists prev. rewrite Nat.add_0_r. apply R_stop. simpl in Hl; lia.
  - cbn [forallb] in Hw; apply andb_prop in Hw as [Hc Hw]. cbn [length] in *.
    destruct (IH rest (S i) (Some c) (S pos) caps Hw ltac:(lia)
                 ltac:(destruct hi; [lia|exact I])) as [pv H].
    exists pv. apply (R_step _ _ _ _ _ (MS (Some c) (w ++ rest) (S pos) caps)).
    + destruct (Nat.ltb_spec i lo); [left; lia|right]. split; [lia|]. split; [|simpl; lia].
      destruct hi; [simpl; lia|exact I].
    + apply (M_class p (MS prev ((c :: w) ++ rest) pos caps) c (w ++ rest)); [reflexivity|exact Hc].
    + replace (pos + S (length w))%nat with (S pos + length w)%nat by lia. exact H.
Qed.

Lemma class_run : forall lo hi g p w rest prev pos caps,
  forallb p w = true -> (lo <= length w)%nat ->
  (match hi with Some h => (length w <= h)%nat | None => True end) ->
  exists pv, mrel (RRep lo hi g (RClass p)) (MS prev (w ++ rest) pos caps)
                                            (MS pv rest (pos + length w) caps).
Proof.
  intros lo hi g p w rest prev pos caps Hw Hl Hh.
  destruct (class_reprel lo hi p w rest O prev pos caps Hw Hl Hh) as [pv H].
  exists pv. apply M_rep. exact H.
Qed.

Lemma lit_run : forall w rest prev pos caps,
  exists pv, mrel (rseq (map rchar w)) (MS prev (w ++ rest) pos caps)
                                       (MS pv rest (pos + length w) caps).
Proof.
  induction w as [|c w IH]; intros rest prev pos caps.
  - exists prev. rewrite Nat.add_0_r. apply M_eps.
  - destruct (IH rest (Some c) (S pos) caps) as [pv H]. exists pv.
    apply (M_seq _ _ _ (MS (Some c) (w ++ rest) (S pos) caps)).
    + apply (M_class _ (MS prev ((c :: w) ++ rest) pos caps) c (w ++ rest)); [reflexivity|apply Z.eqb_refl].
    + replace (pos + length (c :: w))%nat with (S pos + length w)%nat by (simpl; lia). exact H.
Qed.

Lemma char_run : forall c rest prev pos caps,
  mrel (rchar c) (MS prev (c :: rest) pos caps) (MS (Some c) rest (S pos) caps).
Proof.
  intros. apply (M_class _ (MS prev (c :: rest) pos caps) c rest); [reflexivity|apply Z.eqb_refl].
Qed.

Lemma seq_cons : forall r l s s1 s2, mrel r s s1 -> mrel (rseq l) s1 s2 -> mrel (rseq (r :: l)) s s2.
Proof. intros. exact (M_seq _ _ _ _ _ H H0). Qed.

Lemma is_already_renamed_shape_aux : forall y m d c mid,
  length y = 4%nat -> forallb is_unicode_digit y = true ->
  length m = 2%nat -> forallb is_unicode_digit m = true ->
  length d = 2%nat -> forallb is_unicode_digit d = true ->
  c <> [] -> forallb letter_us c = true ->
  mid <> [] -> forallb (fun x => negb (x =? 10)) mid = true ->
  is_already_renamed (y ++ [95] ++ m ++ [95] ++ d ++ [95] ++ c ++ [95] ++ mid ++ lit ".pdf") = true.
Proof.
  intros y m d c mid Ly Dy Lm Dm Ld Dd Nc Cc Nmid Cm.
  unfold is_already_renamed.
  set (hay := y ++ _).
  assert (R : exists s1, mrel RENAMED_PATTERN (MS None hay O []) s1).
  { unfold RENAMED_PATTERN, hay.
    set (tl := [95] ++ mid ++ lit ".pdf").
    set (r4 := [95] ++ c ++ tl). set (r3 := [95] ++ d ++ r4). set (r2 := [95] ++ m ++ r3).
    destruct (class_run 4 (Some 4%nat) true _ y r2 None O [] Dy ltac:(lia) ltac:(simpl; lia))
      as [p1 H1].
    eexists. eapply seq_cons; [exact H1|].
    eapply seq_cons; [apply char_run|].
    destruct (class_run 2 (Some 2%nat) true _ m r3 (Some 95) (S (O + length y)) [] Dm ltac:(lia)
                ltac:(simpl; lia)) as [p2 H2].
    eapply seq_cons; [exact H2|].
    eapply seq_cons; [apply char_run|].
    destruct (class_run 2 (Some 2%nat) true _ d r4 (Some 95) (S (S (O + length y) + length m)) [] Dd
                ltac:(lia) ltac:(simpl; lia)) as [p3 H3].
    eapply seq_cons; [exact H3|].
    eapply seq_cons; [apply char_run|].
    destruct (class_run 1 None true _ c tl (Some 95) (S (S (S (O + length y) + length m) + length d)) []
                Cc ltac:(destruct c; [contradiction|simpl; lia]) I) as [p4 H4].
    eapply seq_cons; [exact H4|].
    eapply seq_cons; [apply M_rep, R_stop; lia|].
    eapply seq_cons; [apply char_run|].
    destruct (class_run 1 None true _ mid (lit ".pdf") (Some 95)
                (S (S (S (S (O + length y) + length m) + length d) + length c)) [] Cm
                ltac:(destruct mid; [contradiction|simpl; lia]) I) as [p5 H5].
    eapply seq_cons; [exact H5|].
    cbn [lit].
    eapply seq_cons; [apply char_run|].
    eapply seq_cons.
    - cbn [rlit lit map rseq fold_right].
      eapply M_seq; [apply char_run|]. eapply M_seq; [apply char_run|].
      eapply M_seq; [apply char_run|]. apply M_eps.
    - eapply seq_cons; [apply M_end; reflexivity|]. apply M_eps. }
  destruct R as [s1 R].
  destruct (mt_complete _ _ _ R Some s1 eq_refl) as [z Hz]. rewrite Hz. reflexivity.
Qed.

Lemma digits_aux_len : forall fuel j n acc, (j < fuel)%nat -> 0 <= n < 10 ^ Z.of_nat (S j) ->
  (length (digits_aux fuel n acc) <= S j + length acc)%nat.
Proof.
  induction fuel as [|f IH]; intros j n acc Hj Hn; [lia|]. cbn [digits_aux].
  destruct (Z.ltb_spec n 10); [simpl; lia|].
  destruct j as [|j]; [simpl in Hn; lia|].
  assert (Hd : 0 <= n / 10 < 10 ^ Z.of_nat (S j)).
  { split; [apply Z.div_pos; lia|]. apply Z.div_lt_upper_bound; [lia|].
    rewrite <- Z.pow_succ_r by lia. replace (Z.succ (Z.of_nat (S j))) with (Z.of_nat (S (S j))) by lia.
    lia. }
  specialize (IH j (n / 10) (48 + n mod 10 :: acc) ltac:(lia) Hd). simpl in IH |- *. lia.
Qed.

Lemma pad_digits_len : forall w n, (0 < w)%nat -> (w <= 64)%nat -> 0 <= n < 10 ^ Z.of_nat w ->
  length (pad_zero w (digits n)) = w.
Proof.
  intros w n H0 H1 Hn. unfold pad_zero, digits. rewrite length_app, repeat_length.
  destruct w as [|j]; [lia|].
  pose proof (digits_aux_len 64 j n [] ltac:(lia) Hn) as H. cbn [length] in H. lia.
Qed.

Lemma ascii_digit_unicode : forall s, forallb is_ascii_digit s = true -> forallb is_unicode_digit s = true.
Proof.
  intros s; apply forallb_mono. intros c H. unfold is_ascii_digit in H.
  apply andb_prop in H as [A B]; apply Z.leb_le in A, B.
  unfold is_unicode_digit, nd_blocks. cbn [existsb].
  replace ((48 <=? c) && (c <? 48 + 10)) with true
    by (symmetry; apply andb_true_iff; split; [apply Z.leb_le|apply Z.ltb_lt]; lia).
  reflexivity.
Qed.

Lemma categories_clean : forall c, In c categories -> c <> kapitalmassnahme ->
  clean_name (replace_char 32 [underscore] c) = c /\ c <> [] /\ forallb letter_us c = true.
Proof.
  intros c H N. unfold categories, types in H. cbn [map snd app In] in H.
  repeat (destruct H as [<-|H]; [first [contradiction | split; [vm_compute; reflexivity|
     split; [discriminate | vm_compute; reflexivity]]]|]).
  contradiction.
Qed.

Lemma drop_while_snoc : forall p l c, p c = false -> drop_while p (l ++ [c]) <> [].
Proof.
  intros p l c H; induction l as [|x l IH]; cbn [app drop_while].
  - rewrite H; discriminate.
  - destruct (p x); [exact IH|discriminate].
Qed.

Lemma namepart_nonempty : forall a n, clean_name a <> [] -> namepart_of a = Some n -> n <> [].
Proof.
  intros a n Hc H. unfold namepart_of in H.
  pose proof (clean_name_sanitized a) as S. apply sanitized_spec in S as (_ & _ & Hh & _).
  destruct (clean_name a) as [|c t] eqn:E; [contradiction|].
  destruct (50 <? blen (c :: t)).
  - destruct (truncate 50 (c :: t)) as [u|] eqn:Et; [|discriminate]. injection H as <-.
    cbn [truncate] in Et. cbn [head_us] in Hh.
    assert (Lc : utf8_len c <= 4) by (unfold utf8_len; repeat destruct (_ <? _); lia).
    replace (50 <=? 0) with false in Et by reflexivity.
    replace (50 <? utf8_len c) with false in Et by (symmetry; apply Z.ltb_ge; lia).
    destruct (truncate (50 - utf8_len c) t) as [v|]; [|discriminate]. injection Et as <-.
    unfold trim_end_by. cbn [rev]. intro R.
    apply (f_equal (@rev Z)) in R. rewrite rev_involutive in R. exact (drop_while_snoc _ _ _ Hh R).
  - injection H as <-. discriminate.
Qed.

Lemma stem_not_nl : forall s, forallb stem_char s = true -> forallb (fun x => negb (x =? 10)) s = true.
Proof.
  intros s; apply forallb_mono. intros c H. unfold stem_char, is_control in H.
  destruct (c =? 10) eqn:E; [|reflexivity]. apply Z.eqb_eq in E; subst c. discriminate H.
Qed.

Lemma build_filename_recognised_aux : forall r orig s,
  valid_date (date r) = true -> 0 <= year (date r) <= 9999 ->
  In (doc_type r) categories -> doc_type r <> kapitalmassnahme ->
  clean_name (asset r) <> [] -> ext_part orig = lit "pdf" ->
  build_filename r orig = Some s -> is_already_renamed s = true.
Proof.
  intros r o s V Y Ic Nk Na Eo H.
  unfold valid_date in V. repeat (apply andb_prop in V as [V ?]).
  apply Z.leb_le in H0, H1, H2, H3.
  assert (Dm : days_in_month (year (date r)) (month (date r)) <= 31)
    by (unfold days_in_month; repeat destruct (_ =? _); try destruct (is_leap _); simpl; lia).
  destruct (categories_clean _ Ic Nk) as [Cd [Cn Cl]].
  unfold build_filename in H. rewrite Cd, Eo in H.
  destruct (namepart_of (asset r)) as [np|] eqn:En; [|discriminate].
  pose proof (namepart_nonempty _ _ Na En) as Nn.
  pose proof (stem_not_nl _ (sanitized_stem _ (namepart_of_sanitized _ _ En))) as Ln.
  injection H as <-.
  unfold format_date.
  replace ((0 <=? year (date r)) && (year (date r) <=? 9999)) with true
    by (symmetry; apply andb_true_iff; split; apply Z.leb_le; lia).
  set (ys := pad_zero 4 (digits (year (date r)))).
  set (ms := pad_zero 2 (digits (month (date r)))).
  set (ds := pad_zero 2 (digits (day (date r)))).
  assert (Hy : length ys = 4%nat /\ forallb is_unicode_digit ys = true).
  { split; [apply pad_digits_len; simpl; lia|]. apply ascii_digit_unicode, pad_digits; lia. }
  assert (Hm : length ms = 2%nat /\ forallb is_unicode_digit ms = true).
  { split; [apply pad_digits_len; simpl; lia|]. apply ascii_digit_unicode, pad_digits; lia. }
  assert (Hd : length ds = 2%nat /\ forallb is_unicode_digit ds = true).
  { split; [apply pad_digits_len; simpl; lia|]. apply ascii_digit_unicode, pad_digits; lia. }
  destruct Hy as [Ly Dy], Hm as [Lm Dm'], Hd as [Ld Dd].
  assert (Ex : forall mid, mid <> [] -> forallb (fun x => negb (x =? 10)) mid = true ->
            is_already_renamed ((ys ++ [underscore] ++ ms ++ [underscore] ++ ds) ++ [underscore]
              ++ doc_type r ++ [underscore] ++ mid ++ [46] ++ lit "pdf") = true).
  { intros mid M1 M2. rewrite <- !app_assoc.
    exact (is_already_renamed_shape_aux ys ms ds (doc_type r) mid Ly Dy Lm Dm' Ld Dd Cn Cl M1 M2). }
  destruct (isin_part (isin r)) as [i|] eqn:Ei.
  - assert (Ii : i <> [] /\ forallb (fun x => negb (x =? 10)) i = true).
    { unfold isin_part in Ei. destruct (isin r); [|discriminate].
      destruct (_ && _) eqn:E; [|discriminate]. injection Ei as <-.
      apply andb_prop in E as [E1 E2]. split.
      - intros ->. discriminate.
      - exact (stem_not_nl _ (forallb_mono _ _ _ alnum_stem E2)). }
    destruct Ii as [I1 I2].
    destruct (str_eqb np i).
    + exact (Ex i I1 I2).
    + replace (i ++ underscore :: np ++ 46 :: lit "pdf")
        with ((i ++ [underscore] ++ np) ++ [46] ++ lit "pdf")
        by (rewrite <- !app_assoc; reflexivity).
      apply Ex.
      * destruct i; [contradiction|discriminate].
      * rewrite !forallb_app, I2, Ln. reflexivity.
  - exact (Ex np Nn Ln).
Qed.

(** ** The loop of [process_folder] *)

Lemma process_entry_renamed_inv : forall cy path io n,
  process_entry cy path io = Renamed n ->
  exists orig t r, file_name path = Some orig /\ io_text io = Some t /\
    parse_pdf_data cy t = Some r /\ build_filename r orig = Some n /\ blen n <= 255.
Proof.
  intros cy path io n H. unfold process_entry in H.
  destruct (negb _); [discriminate|]. destruct (negb (io_inside io)); [discriminate|].
  destruct (file_name path) as [orig|] eqn:Ef; [|discriminate].
  destruct (255 <? blen orig); [discriminate|]. destruct (is_already_renamed orig); [discriminate|].
  destruct (match io_size io with Some n => _ | None => false end); [discriminate|].
  destruct (io_text io) as [t|] eqn:Et; [|discriminate].
  destruct (parse_pdf_data cy t) as [r|] eqn:Ep; [|discriminate].
  destruct (build_filename r orig) as [m|] eqn:Eb; [|discriminate].
  destruct (255 <? blen m) eqn:El; [discriminate|]. apply Z.ltb_ge in El.
  assert (m = n).
  { destruct (io_canon_new io) as [[|]|]; try discriminate;
      destruct (io_canon_parent io) as [[|]|]; try discriminate; injection H as <-; reflexivity. }
  subst m. exists orig, t, r. repeat split; first [reflexivity | assumption].
Qed.

(** X14. When the loop of [process_folder] renames a file, the new name has at most 255 bytes and is a non-empty stem, a dot and an extension of at most 10 ASCII letters and digits; the stem has no control character, dot, slash, backslash or other dangerous character. *)
Theorem process_entry_renamed_safe : forall cy path io n,
  process_entry cy path io = Renamed n ->
  exists orig stem, file_name path = Some orig /\ n = stem ++ [46] ++ ext_part orig /\
    stem <> [] /\ forallb stem_char stem = true /\ ext_ok (ext_part orig) = true /\ blen n <= 255.
Proof.
  intros cy path io n H.
  destruct (process_entry_renamed_inv _ _ _ _ H) as (orig & t & r & Ef & Et & Ep & Eb & Ln).
  destruct (parse_pdf_data_record_ok_aux _ _ _ Ep) as (_ & V & _).
  destruct (build_filename_safe_aux _ _ _ V Eb) as (stem & E & N & S & X).
  exists orig, stem. repeat split; assumption.
Qed.

Lemma process_entry_renamed_safe_witness :
  process_entry 2026 (lit "docs/scan.pdf") scan_io = Renamed depot_name /\
  exists orig stem, file_name (lit "docs/scan.pdf") = Some orig /\ depot_name = stem ++ [46] ++ ext_part orig /\
    stem <> [] /\ forallb stem_char stem = true /\ ext_ok (ext_part orig) = true /\ blen depot_name <= 255.
Proof.
  assert (H : process_entry 2026 (lit "docs/scan.pdf") scan_io = Renamed depot_name) by (vm_compute; reflexivity).
  split; [exact H | exact (process_entry_renamed_safe _ _ _ _ H)].
Defined.

(** X15. A file renamed by the loop of [process_folder] is skipped as already renamed when the folder is processed again, provided the current year is at most 9994, the document type is not Kapitalmassnahme, the cleaned asset is not empty and the original extension is [pdf]. *)
Theorem process_entry_rerun_skips : forall cy path io n dir orig t r,
  process_entry cy path io = Renamed n ->
  file_name path = Some orig -> path = dir ++ orig -> (dir = [] \/ exists p, dir = p ++ [47]) ->
  io_text io = Some t -> parse_pdf_data cy t = Some r ->
  cy <= 9994 -> doc_type r <> kapitalmassnahme -> clean_name (asset r) <> [] ->
  ext_part orig = lit "pdf" ->
  forall cy' io', io_is_file io' = true -> io_inside io' = true ->
  process_entry cy' (dir ++ n) io' = AlreadyRenamed.
Proof.
  intros cy path io n dir orig t r H Ef Ep Hdir Et Er Hy Hk Ha He cy' io' F1 F2.
  destruct (process_entry_renamed_inv _ _ _ _ H) as (orig' & t' & r' & Ef' & Et' & Ep' & Eb & Ln).
  rewrite Ef in Ef'; injection Ef' as <-. rewrite Et in Et'; injection Et' as <-.
  rewrite Er in Ep'; injection Ep' as <-.
  destruct (parse_pdf_data_record_ok_aux _ _ _ Er) as (_ & V & Yr & _).
  assert (R : is_already_renamed n = true).
  { apply (build_filename_recognised_aux r orig n V ltac:(lia) (parse_pdf_data_doc_type_in_aux _ _ _ Er)
             Hk Ha He Eb). }
  destruct (build_filename_safe_aux _ _ _ V Eb) as (stem & E & N & S & _).
  rewrite He in E.
  assert (Np : forallb (fun c => negb (c =? 47)) (stem ++ lit "pdf") = true).
  { rewrite forallb_app. apply andb_true_iff; split; [|reflexivity].
    refine (forallb_mono _ _ _ _ S). intros c Hc. unfold stem_char, is_dangerous in Hc.
    cbn [existsb] in Hc. destruct (c =? 47); [|reflexivity].
    rewrite !orb_true_r in Hc. rewrite andb_false_r in Hc. discriminate. }
  destruct (path_extension_of_name dir stem (lit "pdf") Hdir N
              ltac:(intros [_ C]; discriminate) Np eq_refl) as [Fn Pe].
  rewrite <- E in Fn, Pe.
  unfold process_entry. rewrite Pe, F1, F2, Fn. cbn [negb andb].
  replace (eq_ignore_ascii_case (lit "pdf") (lit "pdf")) with true by reflexivity.
  cbn [negb]. replace (255 <? blen n) with false by (symmetry; apply Z.ltb_ge; exact Ln).
  rewrite R. reflexivity.
Qed.

Lemma process_entry_rerun_skips_witness :
  process_entry 2026 (lit "docs/scan.pdf") scan_io = Renamed depot_name /\
  process_entry 2027 (lit "docs/" ++ depot_name) scan_io = AlreadyRenamed.
Proof.
  assert (H : process_entry 2026 (lit "docs/scan.pdf") scan_io = Renamed depot_name) by (vm_compute; reflexivity).
  split; [exact H|].
  apply (process_entry_rerun_skips 2026 (lit "docs/scan.pdf") scan_io depot_name (lit "docs/")
           (lit "scan.pdf") depot_text depot_record H).
  - vm_compute; reflexivity.
  - reflexivity.
  - right. exists (lit "docs"). reflexivity.
  - reflexivity.
  - vm_compute; reflexivity.
  - lia.
  - intro E. assert (B : str_eqb (doc_type depot_record) kapitalmassnahme = true)
      by (rewrite E; apply str_eqb_refl). vm_compute in B; discriminate B.
  - intro E; vm_compute in E; discriminate E.
  - vm_compute; reflexivity.
  - reflexivity.
  - reflexivity.
Defined.

(** ** Cleaned names *)

(** X7. [clean_name] leaves a name unchanged exactly when the name is already sanitized (no control, dangerous, whitespace or comma character, no double underscore, no underscore at either end) and has at most 500 bytes. *)
Theorem clean_name_fixpoint_iff : forall s, clean_name s = s <-> sanitized s = true /\ blen s <= 500.
Proof.
  intro s; split.
  - intro E. split; [rewrite <- E; apply clean_name_sanitized | rewrite <- E; apply clean_name_blen].
  - intros [A B]. exact (clean_name_id s A B).
Qed.

Lemma truncate_blen : forall n s t, truncate n s = Some t -> blen t <= Z.max n 0.
Proof.
  intros n s; revert n; induction s as [|c r IH]; intros n t H; cbn [truncate] in H.
  - injection H as <-. simpl; lia.
  - destruct (Z.leb_spec n 0); [injection H as <-; simpl; lia|].
    destruct (n <? utf8_len c) eqn:E; [discriminate|]. apply Z.ltb_ge in E.
    destruct (truncate (n - utf8_len c) r) as [u|] eqn:Eu; [|discriminate].
    injection H as <-. specialize (IH _ _ Eu). cbn [blen]. lia.
Qed.

(** X8. The name part [build_filename] takes from the asset is sanitized and has at most 50 bytes. *)
Theorem namepart_of_bound : forall a n, namepart_of a = Some n -> sanitized n = true /\ blen n <= 50.
Proof.
  intros a n H. split; [exact (namepart_of_sanitized _ _ H)|].
  unfold namepart_of in H.
  destruct (Z.ltb_spec 50 (blen (clean_name a))).
  - destruct (truncate 50 (clean_name a)) as [t|] eqn:E; [|discriminate]. injection H as <-.
    pose proof (truncate_blen _ _ _ E) as Bt. destruct (trim_end_prefix is_underscore t) as [q Hq].
    rewrite Hq, blen_app in Bt. pose proof (blen_nonneg q). lia.
  - injection H as <-. assumption.
Qed.

Lemma namepart_of_bound_witness :
  namepart_of (lit "MSCI World USD (Dist)") = Some (lit "MSCI_World_USD_Dist") /\
  sanitized (lit "MSCI_World_USD_Dist") = true /\ blen (lit "MSCI_World_USD_Dist") <= 50.
Proof.
  assert (H : namepart_of (lit "MSCI World USD (Dist)") = Some (lit "MSCI_World_USD_Dist"))
    by (vm_compute; reflexivity).
  split; [exact H | exact (namepart_of_bound _ _ H)].
Defined.

(** ** The properties used above, restated *)

(** X1. Every date [extract_date] returns is one [NaiveDate::from_ymd_opt] accepts: month 1 to 12, a day that exists in that month and year, and a year within chrono range. *)
Theorem extract_date_valid : forall text d, extract_date text = Some d -> valid_date d = true.
Proof. exact extract_date_valid_aux. Qed.

Lemma extract_date_valid_witness :
  extract_date depot_text = Some (mkDate 2025 11 5) /\ valid_date (mkDate 2025 11 5) = true.
Proof.
  assert (H : extract_date depot_text = Some (mkDate 2025 11 5)) by (vm_compute; reflexivity).
  split; [exact H | exact (extract_date_valid _ _ H)].
Defined.

(** X2. A record returned by [parse_pdf_data] carries the date [extract_date] found, a valid date with a year from 2000 to five years after the current one, and an asset that is not blank and has at most 500 bytes. *)
Theorem parse_pdf_data_record_ok : forall current_year text r,
  parse_pdf_data current_year text = Some r ->
  extract_date text = Some (date r) /\ valid_date (date r) = true /\
  2000 <= year (date r) <= current_year + 5 /\
  is_empty (trim (asset r)) = false /\ blen (asset r) <= 500.
Proof. exact parse_pdf_data_record_ok_aux. Qed.

Lemma parse_pdf_data_record_ok_witness :
  parse_pdf_data 2026 depot_text = Some depot_record /\
  (extract_date depot_text = Some (date depot_record) /\ valid_date (date depot_record) = true /\
   2000 <= year (date depot_record) <= 2026 + 5 /\ is_empty (trim (asset depot_record)) = false /\
   blen (asset depot_record) <= 500).
Proof.
  assert (H : parse_pdf_data 2026 depot_text = Some depot_record) by (vm_compute; reflexivity).
  split; [exact H | exact (parse_pdf_data_record_ok _ _ _ H)].
Defined.

(** X3. The document type of a record of [parse_pdf_data] is always one of a fixed list: a replacement of the keyword table, or one of Verkauf, Zinsen_und_Dividende, Zinsen, Dividende and Unbekannt. *)
Theorem parse_pdf_data_doc_type_in : forall current_year text r,
  parse_pdf_data current_year text = Some r -> In (doc_type r) categories.
Proof. exact parse_pdf_data_doc_type_in_aux. Qed.

Lemma parse_pdf_data_doc_type_in_witness :
  parse_pdf_data 2026 depot_text = Some depot_record /\ In (doc_type depot_record) categories.
Proof.
  assert (H : parse_pdf_data 2026 depot_text = Some depot_record) by (vm_compute; reflexivity).
  split; [exact H | exact (parse_pdf_data_doc_type_in _ _ _ H)].
Defined.

(** X9. For a record with a valid date, the name [build_filename] builds is a non-empty stem, a dot and the extension; the stem has no control character and none of the dangerous characters (so no dot, slash or backslash), and the extension is at most 10 ASCII letters and digits. *)
Theorem build_filename_safe : forall r orig s,
  valid_date (date r) = true -> build_filename r orig = Some s ->
  exists stem, s = stem ++ [46] ++ ext_part orig /\ stem <> [] /\
               forallb stem_char stem = true /\ ext_ok (ext_part orig) = true.
Proof. exact build_filename_safe_aux. Qed.

Lemma build_filename_safe_witness :
  valid_date (date depot_record) = true /\ build_filename depot_record (lit "scan.pdf") = Some depot_name /\
  exists stem, depot_name = stem ++ [46] ++ ext_part (lit "scan.pdf") /\ stem <> [] /\
               forallb stem_char stem = true /\ ext_ok (ext_part (lit "scan.pdf")) = true.
Proof.
  assert (V : valid_date (date depot_record) = true) by (vm_compute; reflexivity).
  assert (H : build_filename depot_record (lit "scan.pdf") = Some depot_name) by (vm_compute; reflexivity).
  split; [exact V|]. split; [exact H | exact (build_filename_safe _ _ _ V H)].
Defined.

(** X12. [is_already_renamed] accepts every name made of four digits, two digits and two digits, a non-empty run of ASCII letters and underscores, and a non-empty part without line break followed by [.pdf], all joined by underscores. *)
Theorem is_already_renamed_shape : forall y m d c mid,
  length y = 4%nat -> forallb is_unicode_digit y = true ->
  length m = 2%nat -> forallb is_unicode_digit m = true ->
  length d = 2%nat -> forallb is_unicode_digit d = true ->
  c <> [] -> forallb letter_us c = true ->
  mid <> [] -> forallb (fun x => negb (x =? 10)) mid = true ->
  is_already_renamed (y ++ [95] ++ m ++ [95] ++ d ++ [95] ++ c ++ [95] ++ mid ++ lit ".pdf") = true.
Proof. exact is_already_renamed_shape_aux. Qed.

Lemma is_already_renamed_shape_witness :
  is_already_renamed (lit "2025" ++ [95] ++ lit "11" ++ [95] ++ lit "05" ++ [95] ++ lit "Depotauszug"
                      ++ [95] ++ lit "Depot" ++ lit ".pdf") = true.
Proof.
  apply is_already_renamed_shape; first [reflexivity | discriminate].
Defined.

(** X13. The names [build_filename] gives are recognised by [is_already_renamed] when the date is valid with a year of at most four digits, the document type is one [parse_pdf_data] produces other than Kapitalmassnahme, the cleaned asset is not empty and the original extension is [pdf]. *)
Theorem build_filename_recognised : forall r orig s,
  valid_date (date r) = true -> 0 <= year (date r) <= 9999 ->
  In (doc_type r) categories -> doc_type r <> kapitalmassnahme ->
  clean_name (asset r) <> [] -> ext_part orig = lit "pdf" ->
  build_filename r orig = Some s -> is_already_renamed s = true.
Proof. exact build_filename_recognised_aux. Qed.

Lemma build_filename_recognised_witness :
  build_filename depot_record (lit "scan.pdf") = Some depot_name /\ is_already_renamed depot_name = true.
Proof.
  assert (H : build_filename depot_record (lit "scan.pdf") = Some depot_name) by (vm_compute; reflexivity).
  split; [exact H|].
  apply (build_filename_recognised depot_record (lit "scan.pdf") depot_name).
  - vm_compute; reflexivity.
  - cbn; lia.
  - vm_compute; tauto.
  - intro E. assert (B : str_eqb (doc_type depot_record) kapitalmassnahme = true)
      by (rewrite E; apply str_eqb_refl). vm_compute in B; discriminate B.
  - intro E; vm_compute in E; discriminate E.
  - vm_compute; reflexivity.
  - exact H.
Defined.
